(** * Blackjack trainer: shoe bookkeeping, true count and legacy strategy

    A shallow embedding of the engine functions of
    [src/Pages/BlackjackTrainer.jsx] (the React component
    [BlackjackTrainer]) and the properties the specification states about
    them.

    Modelling conventions.
    - The component keeps its state in [useState] cells.  A handler runs
      against the values of the render it was created in and replaces cells
      with the setters; a handler is therefore a function from the rendered
      [State] to the next [State].  No object is ever mutated after it has
      been stored in a cell (handlers build fresh objects with spread), so
      snapshots held by the history are plain values.
    - A JavaScript number that the shoe can hold is an integer or NaN
      ([jsnum]); a property that is absent reads as [undefined], which is
      [None] of a map lookup.
    - Counts are integers.  Quotients (decks remaining, true count) are
      IEEE doubles, each division rounded to the nearest double
      ([toDouble]); a double is represented by the rational it denotes.
    - A property read is a lookup of an own property.  Plain objects also
      inherit the properties of [Object.prototype]
      ([objectPrototypeNames]); statements about arbitrary property names
      exclude those names where the inherited value would be read.
    - Functions imported from modules that are not part of the file
      ([getCountingSystem], [calculateTrueCount], the RulesEngine functions)
      are section variables. *)

From Stdlib Require Import ZArith QArith Qround Qabs Qpower String Ascii List Lia Lqa.
From stdpp Require Import gmap strings list fin_maps.

Local Open Scope string_scope.
Local Open Scope Z_scope.

(** ** JavaScript values *)

(** A number stored in the shoe: an integer count, or NaN. *)
Inductive jsnum : Type :=
| Int (z : Z)
| NaN.

#[global] Instance jsnum_eq_dec : EqDecision jsnum.
Proof. solve_decision. Defined.

(** [x + y] on numbers. *)
Definition jsadd (x y : jsnum) : jsnum :=
  match x, y with
  | Int a, Int b => Int (a + b)
  | _, _ => NaN
  end.

(** [v <= k], [v > k], [v >= k] for a property read [v] (absent = undefined):
    every comparison with undefined or NaN is false. *)
Definition js_le (v : option jsnum) (k : Z) : bool :=
  match v with Some (Int n) => n <=? k | _ => false end.

Definition js_gt (v : option jsnum) (k : Z) : bool :=
  match v with Some (Int n) => k <? n | _ => false end.

Definition js_ge (v : option jsnum) (k : Z) : bool :=
  match v with Some (Int n) => k <=? n | _ => false end.

(** [v - 1] and [v + 1]: undefined and NaN give NaN. *)
Definition js_pred (v : option jsnum) : jsnum :=
  match v with Some (Int n) => Int (n - 1) | _ => NaN end.

Definition js_succ (v : option jsnum) : jsnum :=
  match v with Some (Int n) => Int (n + 1) | _ => NaN end.

(** [v || 0]: undefined, NaN and 0 are falsy. *)
Definition js_or0 (v : option jsnum) : Z :=
  match v with Some (Int n) => n | _ => 0 end.

(** Completion of a handler: it returns, or it throws. *)
Inductive JsError : Type :=
| ReferenceError (identifier : string).

Inductive completion (A : Type) : Type :=
| Normal (a : A)
| Throw (e : JsError).
Arguments Normal {A} a.
Arguments Throw {A} e.

Definition bind {A B} (c : completion A) (k : A -> completion B) : completion B :=
  match c with
  | Normal a => k a
  | Throw e => Throw e
  end.

(** ** Data model *)

(** The fields of the rules configuration that the engine functions read. *)
Record Rules : Type := mkRules {
  numDecks : Z;
  countingSystem : string;
  insurance : bool;
  lateSurrender : bool;
  das : bool
}.

(** A counting system as the component uses it: [countingSystem.tags]. *)
Record CountingSystem : Type := mkCountingSystem {
  tags : gmap string Z
}.

(** [countingSystem.tags[card] || 0]. *)
Definition tagWeight (cs : CountingSystem) (card : string) : Z :=
  default 0 (tags cs !! card).

(** A history entry.  [applyCard] pushes [{card, weight, rc, remaining}],
    [applyQuickCount] pushes [{quick, card, rc, remaining}]. *)
Inductive HistoryEntry : Type :=
| CardEntry (card : string) (weight : Z) (rc : Z) (remaining : gmap string jsnum)
| QuickEntry (quick : Z) (card : string) (rc : Z) (remaining : gmap string jsnum).

Definition entry_rc (e : HistoryEntry) : Z :=
  match e with
  | CardEntry _ _ rc _ => rc
  | QuickEntry _ _ rc _ => rc
  end.

Definition entry_remaining (e : HistoryEntry) : gmap string jsnum :=
  match e with
  | CardEntry _ _ _ remaining => remaining
  | QuickEntry _ _ _ remaining => remaining
  end.

Inductive Action : Type :=
| Stand | Hit | Double | Split | Insurance | Surrender.

#[global] Instance Action_eq_dec : EqDecision Action.
Proof. solve_decision. Defined.

(** The [note] strings of the legacy recommendation, by template:
    'Basic Strategy', 'Late Surrender',
    'Index i -> Action (TC = tc)' and 'TC = tc -> Take insurance (TC >= +3)'. *)
Inductive Note : Type :=
| BasicStrategyNote
| LateSurrenderNote
| IndexNote (index : Z) (a : Action) (tc : Z)
| InsuranceNote (tc : Z).

(** The object [getRecommendationLegacy] hands to [setRecommendation]. *)
Record Recommendation : Type := mkRecommendation {
  action : Action;
  note : Note;
  ev : Q;
  color : string
}.

(** The [useState] cells the engine functions read or write. *)
Record State : Type := mkState {
  rules : Rules;
  runningCount : Z;
  cardsRemaining : gmap string jsnum;
  history : list HistoryEntry;
  handType : string;
  handValue : string;
  dealerCard : string;
  recommendation : option Recommendation
}.

Definition setRules (r : Rules) (st : State) : State :=
  mkState r (runningCount st) (cardsRemaining st) (history st)
          (handType st) (handValue st) (dealerCard st) (recommendation st).

(** The ten rank keys of the shoe, in the order [resetShoe] writes them. *)
Definition ranks : list string :=
  ["2"; "3"; "4"; "5"; "6"; "7"; "8"; "9"; "10"; "A"].

(** The property names that every plain object inherits from
    [Object.prototype].  A read of one of them on the shoe or on a tags
    table yields the inherited function or object, not [undefined]; the
    lookups of this development are those of own properties, so what is
    stated of an arbitrary property name is stated outside this list where
    the read value matters. *)
Definition objectPrototypeNames : list string :=
  ["constructor"; "hasOwnProperty"; "isPrototypeOf"; "propertyIsEnumerable";
   "toLocaleString"; "toString"; "valueOf"; "__proto__";
   "__defineGetter__"; "__defineSetter__"; "__lookupGetter__";
   "__lookupSetter__"].

(** The bound of [removeCard]:
    [card === '10' ? rules.numDecks * 16 : rules.numDecks * 4]. *)
Definition capacity (r : Rules) (card : string) : Z :=
  if String.eqb card "10" then numDecks r * 16 else numDecks r * 4.

(** ** Shoe operations *)

(** [initialCards] of [resetShoe]. *)
Definition initialCards (r : Rules) : gmap string jsnum :=
  let cards :=
    fold_left (fun acc card => <[card := Int (numDecks r * 4)]> acc)
              ["2"; "3"; "4"; "5"; "6"; "7"; "8"; "9"] ∅ in
  let cards := <["10" := Int (numDecks r * 16)]> cards in
  <["A" := Int (numDecks r * 4)]> cards.

Definition resetShoe (st : State) : State :=
  mkState (rules st) 0 (initialCards (rules st)) []
          (handType st) (handValue st) (dealerCard st) None.

(** [Object.values(cardsRemaining).reduce((sum, count) => sum + count, 0)].
    Addition of integers and NaN is commutative and associative, so the
    enumeration order of the keys does not show in the result. *)
Definition sumValues (m : gmap string jsnum) : jsnum :=
  map_fold (fun _ count sum => jsadd sum count) (Int 0) m.

Definition getTotalCardsRemaining (st : State) : jsnum :=
  sumValues (cardsRemaining st).

Section Component.

(** Imported from [components/blackjack/CountingSystems]. *)
Variable getCountingSystem : string -> CountingSystem.

Definition applyCard (card : string) (st : State) : State :=
  if js_le (cardsRemaining st !! card) 0 then st
  else
    let countingSystem := getCountingSystem (countingSystem (rules st)) in
    let weight := tagWeight countingSystem card in
    let newRemaining :=
      <[card := js_pred (cardsRemaining st !! card)]> (cardsRemaining st) in
    let newRC := runningCount st + weight in
    mkState (rules st) newRC newRemaining
            (history st ++
               [CardEntry card weight (runningCount st) (cardsRemaining st)])%list
            (handType st) (handValue st) (dealerCard st) (recommendation st).

Definition removeCard (card : string) (st : State) : State :=
  let maxCards := capacity (rules st) card in
  if js_ge (cardsRemaining st !! card) maxCards then st
  else
    let countingSystem := getCountingSystem (countingSystem (rules st)) in
    let weight := tagWeight countingSystem card in
    let newRemaining :=
      <[card := js_succ (cardsRemaining st !! card)]> (cardsRemaining st) in
    let newRC := runningCount st - weight in
    mkState (rules st) newRC newRemaining (history st)
            (handType st) (handValue st) (dealerCard st) (recommendation st).

End Component.

(** The [for (let card of cards) { if (cardsCopy[card] > 0) { cardToRemove
    = card; break; } }] loops of [applyQuickCount]. *)
Fixpoint firstAvailable (cardsCopy : gmap string jsnum) (cards : list string)
  : option string :=
  match cards with
  | [] => None
  | card :: rest =>
      if js_gt (cardsCopy !! card) 0 then Some card
      else firstAvailable cardsCopy rest
  end.

Definition lowCards : list string := ["2"; "3"; "4"; "5"; "6"].
Definition neutralCards : list string := ["7"; "8"; "9"].

(** The card [applyQuickCount] settles on for a button value. *)
Definition cardToRemove (value : Z) (cardsCopy : gmap string jsnum)
  : option string :=
  if value =? 1 then firstAvailable cardsCopy lowCards
  else if value =? 0 then firstAvailable cardsCopy neutralCards
  else if value =? -1 then
    if js_gt (cardsCopy !! "10") 0 then Some "10"
    else if js_gt (cardsCopy !! "A") 0 then Some "A"
    else None
  else None.

Definition applyQuickCount (value : Z) (st : State) : State :=
  if js_le (Some (getTotalCardsRemaining st)) 0 then st
  else
    match cardToRemove value (cardsRemaining st) with
    | Some card =>
        let cardsCopy :=
          <[card := js_pred (cardsRemaining st !! card)]> (cardsRemaining st) in
        let newRC := runningCount st + value in
        mkState (rules st) newRC cardsCopy
                (history st ++
                   [QuickEntry value card (runningCount st) (cardsRemaining st)])%list
                (handType st) (handValue st) (dealerCard st) (recommendation st)
    | None => st
    end.

(** [history[history.length - 1]] and [history.slice(0, -1)]. *)
Definition undo (st : State) : State :=
  match last (history st) with
  | None => st
  | Some lastAction =>
      mkState (rules st) (entry_rc lastAction) (entry_remaining lastAction)
              (removelast (history st))
              (handType st) (handValue st) (dealerCard st) (recommendation st)
  end.

(** ** IEEE doubles *)

(** A quotient of two numbers is the double nearest to the exact quotient:
    53 significant bits, and on a tie the neighbour with the even
    significand.  Counts are integers that a double holds exactly (up to
    2^53 in size).  The exponent is not bounded here: overflow and
    subnormals arise only beyond 2^1023 and below 2^-1022, which quotients
    of such counts do not reach. *)

(** The binade of [x <> 0]: the [b] with [2^b <= |x| < 2^(b+1)]. *)
Definition binade (x : Q) : Z :=
  let l := Z.log2 (Z.abs (Qnum x)) - Z.log2 (Zpos (Qden x)) in
  if Qle_bool (2 ^ l) (Qabs x) then l else l - 1.

(** The integer nearest to [y], the even one when [y] lies half-way. *)
Definition roundHalfEven (y : Q) : Z :=
  let f := Qfloor y in
  match (y - inject_Z f ?= 1 # 2)%Q with
  | Lt => f
  | Gt => f + 1
  | Eq => if Z.even f then f else f + 1
  end.

(** The double nearest to [x]: [x] rounded to a multiple of the unit in
    the last place of its binade. *)
Definition toDouble (x : Q) : Q :=
  if Qeq_bool x 0 then 0%Q
  else
    let ulp := (2 ^ (binade x - 52))%Q in
    (inject_Z (roundHalfEven (x / ulp)) * ulp)%Q.

(** ** True count *)

(** [getTotalCardsRemaining() / 52]; [None] is NaN. *)
Definition getRemainingDecks (st : State) : option Q :=
  match getTotalCardsRemaining st with
  | Int total => Some (toDouble (inject_Z total / 52))
  | NaN => None
  end.

(** [remaining > 0 ? runningCount / remaining : 0]. *)
Definition getTrueCount (st : State) : Q :=
  match getRemainingDecks st with
  | Some remaining =>
      if Qle_bool remaining 0 then 0%Q
      else toDouble (inject_Z (runningCount st) / remaining)
  | None => 0%Q
  end.

(** [Math.round]: the integer nearest to [x], the larger one when [x] lies
    half-way between two integers (ECMAScript: ties go towards +infinity;
    the result -0 for -0.5 <= x < 0 is the integer 0 here). *)
Definition Math_round (x : Q) : Z := Qfloor (x + (1 # 2))%Q.

Definition getTrueCountRounded (st : State) : Z :=
  Math_round (getTrueCount st).

(** ** Cards remaining by count category *)

Record CategoryCounts : Type := mkCategoryCounts {
  plusOne : Z;
  plusOnePercent : string;
  neutral : Z;
  neutralPercent : string;
  minusOne : Z;
  minusOnePercent : string
}.

(** [cards.reduce((sum, card) => sum + (cardsRemaining[card] || 0), 0)]. *)
Definition countCards (m : gmap string jsnum) (cards : list string) : Z :=
  fold_left (fun sum card => sum + js_or0 (m !! card)) cards 0.

Section Categories.

(** [Number.prototype.toFixed]: decimal formatting of a double. *)
Variable toFixed : Q -> nat -> string.

(** [totalCards > 0 ? ((cards / totalCards) * 100).toFixed(1) : '0.0']. *)
Definition percentOf (cards : Z) (totalCards : jsnum) : string :=
  match totalCards with
  | Int total =>
      if 0 <? total
      then toFixed
             (toDouble (toDouble (inject_Z cards / inject_Z total) * 100)) 1%nat
      else "0.0"
  | NaN => "0.0"
  end.

Definition getCardsRemainingByCategory (st : State) : CategoryCounts :=
  let plusOneCards := countCards (cardsRemaining st) ["2"; "3"; "4"; "5"; "6"] in
  let neutralCards := countCards (cardsRemaining st) ["7"; "8"; "9"] in
  let minusOneCards :=
    js_or0 (cardsRemaining st !! "10") + js_or0 (cardsRemaining st !! "A") in
  let totalCards := getTotalCardsRemaining st in
  mkCategoryCounts
    plusOneCards (percentOf plusOneCards totalCards)
    neutralCards (percentOf neutralCards totalCards)
    minusOneCards (percentOf minusOneCards totalCards).

End Categories.

(** ** [parseInt] *)

(** A string is held as the bytes of its UTF-8 encoding.  The white space
    and line terminators that [parseInt] skips and [trim] strips are the
    one-byte characters TAB, LF, VT, FF, CR and space, the two-byte U+00A0,
    and the three-byte U+1680, U+2000 to U+200A, U+2028, U+2029, U+202F,
    U+205F, U+3000 and U+FEFF. *)
Definition isWhiteSpace (c : ascii) : bool :=
  let n := nat_of_ascii c in
  ((9 <=? n) && (n <=? 13) || (n =? 32))%nat.

Definition isWhiteSpace2 (c1 c2 : ascii) : bool :=
  ((nat_of_ascii c1 =? 194) && (nat_of_ascii c2 =? 160))%nat.

Definition isWhiteSpace3 (c1 c2 c3 : ascii) : bool :=
  let n1 := nat_of_ascii c1 in
  let n2 := nat_of_ascii c2 in
  let n3 := nat_of_ascii c3 in
  ((n1 =? 225) && (n2 =? 154) && (n3 =? 128)
   || (n1 =? 226) && (n2 =? 128)
      && ((128 <=? n3) && (n3 <=? 138)
          || (n3 =? 168) || (n3 =? 169) || (n3 =? 175))
   || (n1 =? 226) && (n2 =? 129) && (n3 =? 159)
   || (n1 =? 227) && (n2 =? 128) && (n3 =? 128)
   || (n1 =? 239) && (n2 =? 187) && (n3 =? 191))%nat.

Fixpoint trimStart (s : string) : string :=
  match s with
  | EmptyString => s
  | String c1 rest1 =>
      if isWhiteSpace c1 then trimStart rest1
      else
        match rest1 with
        | EmptyString => s
        | String c2 rest2 =>
            if isWhiteSpace2 c1 c2 then trimStart rest2
            else
              match rest2 with
              | EmptyString => s
              | String c3 rest3 =>
                  if isWhiteSpace3 c1 c2 c3 then trimStart rest3 else s
              end
        end
  end.

(** The value of a digit character in radices up to 36. *)
Definition digitValue (c : ascii) : option Z :=
  let n := Z.of_nat (nat_of_ascii c) in
  if (48 <=? n) && (n <=? 57) then Some (n - 48)
  else if (97 <=? n) && (n <=? 122) then Some (n - 87)
  else if (65 <=? n) && (n <=? 90) then Some (n - 55)
  else None.

(** The longest prefix of radix digits; [acc] is [None] until a digit is read. *)
Fixpoint parseDigits (radix : Z) (s : string) (acc : option Z) : option Z :=
  match s with
  | String c rest =>
      match digitValue c with
      | Some d =>
          if d <? radix
          then parseDigits radix rest (Some (default 0 acc * radix + d))
          else acc
      | None => acc
      end
  | EmptyString => acc
  end.

(** [parseInt(string)] without a radix argument; [None] is NaN. *)
Definition parseInt (s : string) : option Z :=
  let s := trimStart s in
  let '(sign, s) :=
    match s with
    | String "-" rest => (-1, rest)
    | String "+" rest => (1, rest)
    | _ => (1, s)
    end in
  let '(radix, s) :=
    match s with
    | String "0" (String "x" rest) => (16, rest)
    | String "0" (String "X" rest) => (16, rest)
    | _ => (10, s)
    end in
  option_map (Z.mul sign) (parseDigits radix s None).

(** [v >= k] and [v === k] for a parsed number, [array.includes(v)]:
    false on NaN. *)
Definition num_ge (v : option Z) (k : Z) : bool :=
  match v with Some n => k <=? n | None => false end.

Definition num_eq (v : option Z) (k : Z) : bool :=
  match v with Some n => n =? k | None => false end.

Definition includes (l : list Z) (v : option Z) : bool :=
  match v with Some n => existsb (Z.eqb n) l | None => false end.

(** ** Legacy basic strategy *)

(** The [hard] branch: it always returns, the last statement being
    [return 'Hit']. *)
Definition hardAction (v dealer : option Z) : Action :=
  if num_ge v 17 then Stand
  else if num_eq v 16 then (if includes [2;3;4;5;6] dealer then Stand else Hit)
  else if num_eq v 15 then (if includes [2;3;4;5;6] dealer then Stand else Hit)
  else if num_eq v 14 then (if includes [2;3;4;5;6] dealer then Stand else Hit)
  else if num_eq v 13 then (if includes [2;3;4;5;6] dealer then Stand else Hit)
  else if num_eq v 12 then (if includes [4;5;6] dealer then Stand else Hit)
  else if num_eq v 11 then Double
  else if num_eq v 10 then (if includes [2;3;4;5;6;7;8;9] dealer then Double else Hit)
  else if num_eq v 9 then (if includes [3;4;5;6] dealer then Double else Hit)
  else Hit.

(** The [soft] branch; [None] when no [if] of the branch returns. *)
Definition softAction (v dealer : option Z) : option Action :=
  if num_eq v 9 then Some Stand
  else if num_eq v 8 then
    Some (if includes [2;3;4;5;6] dealer then Double else Stand)
  else if num_eq v 7 then
    Some (if includes [3;4;5;6] dealer then Double
          else if includes [2;7;8] dealer then Stand else Hit)
  else if num_eq v 6 then Some (if includes [3;4;5;6] dealer then Double else Hit)
  else if num_eq v 5 || num_eq v 4 then
    Some (if includes [4;5;6] dealer then Double else Hit)
  else if num_eq v 3 || num_eq v 2 then
    Some (if includes [5;6] dealer then Double else Hit)
  else None.

(** The [pairs] branch; [None] when no [if] of the branch returns. *)
Definition pairsAction (handValue : string) (dealer : option Z) (r : Rules)
  : option Action :=
  if String.eqb handValue "A" then Some Split
  else if String.eqb handValue "10" then Some Stand
  else if String.eqb handValue "9" then
    Some (if includes [2;3;4;5;6;8;9] dealer then Split else Stand)
  else if String.eqb handValue "8" then Some Split
  else if String.eqb handValue "7" then
    Some (if includes [2;3;4;5;6;7] dealer then Split else Hit)
  else if String.eqb handValue "6" then
    Some (if includes [2;3;4;5;6] dealer
          then (if das r then Split else Hit) else Hit)
  else if String.eqb handValue "5" then Some Double
  else if String.eqb handValue "4" then
    Some (if includes [5;6] dealer && das r then Split else Hit)
  else if String.eqb handValue "3" || String.eqb handValue "2" then
    Some (if includes [2;3;4;5;6;7] dealer && das r then Split else Hit)
  else None.

(** The action returned from inside one of the three hand-type branches;
    [None] when control leaves the [if / else if] chain and reaches the
    closing [return 'Hit'] of the function. *)
Definition strategyEntry (handType handValue : string) (dealer : option Z)
    (r : Rules) : option Action :=
  if String.eqb handType "hard" then Some (hardAction (parseInt handValue) dealer)
  else if String.eqb handType "soft" then softAction (parseInt handValue) dealer
  else if String.eqb handType "pairs" then pairsAction handValue dealer r
  else None.

Definition getBasicStrategyActionLegacy (handType handValue : string)
    (dealer : option Z) (r : Rules) : Action :=
  match strategyEntry handType handValue dealer r with
  | Some a => a
  | None => Hit
  end.

(** ** Legacy recommendation *)

(** [dealerCard === 'A' ? 11 : parseInt(dealerCard)]. *)
Definition dealerValue (dealerCard : string) : option Z :=
  if String.eqb dealerCard "A" then Some 11 else parseInt dealerCard.

(** The guard of the first [if] of [getRecommendationLegacy]. *)
Definition insuranceFires (st : State) : bool :=
  num_eq (dealerValue (dealerCard st)) 11
  && insurance (rules st)
  && (3 <=? getTrueCountRounded st).

(** The [rules.lateSurrender] block: the values of [action] and [note]
    after it ([None] is the empty string, which is falsy). *)
Definition surrenderTier (st : State) : option Action * Note :=
  let dealer := dealerValue (dealerCard st) in
  if lateSurrender (rules st) then
    let v := parseInt (handValue st) in
    if String.eqb (handType st) "hard" then
      if (num_eq v 16 && includes [9;10;11] dealer)
         || (num_eq v 15 && num_eq dealer 10)
      then (Some Surrender, LateSurrenderNote)
      else (None, BasicStrategyNote)
    else (None, BasicStrategyNote)
  else (None, BasicStrategyNote).

(** The chain of index deviations, entered when [action] is still empty. *)
Definition deviationTier (st : State) : option Action * Note :=
  let dealer := dealerValue (dealerCard st) in
  let tc := getTrueCountRounded st in
  let handKey := handType st ++ "-" ++ handValue st in
  if String.eqb handKey "hard-16" && num_eq dealer 10 && (0 <=? tc)
  then (Some Stand, IndexNote 0 Stand tc)
  else if String.eqb handKey "hard-15" && num_eq dealer 10 && (4 <=? tc)
  then (Some Stand, IndexNote 4 Stand tc)
  else if String.eqb handKey "hard-12" && num_eq dealer 3 && (2 <=? tc)
  then (Some Stand, IndexNote 2 Stand tc)
  else if String.eqb handKey "hard-12" && num_eq dealer 2 && (3 <=? tc)
  then (Some Stand, IndexNote 3 Stand tc)
  else if String.eqb handKey "hard-10"
          && (num_eq dealer 10 || num_eq dealer 11) && (4 <=? tc)
  then (Some Double, IndexNote 4 Double tc)
  else if String.eqb handKey "hard-11" && num_eq dealer 11 && (1 <=? tc)
  then (Some Double, IndexNote 1 Double tc)
  else if String.eqb handKey "hard-9" && num_eq dealer 2 && (1 <=? tc)
  then (Some Double, IndexNote 1 Double tc)
  else if String.eqb handKey "hard-9" && num_eq dealer 7 && (3 <=? tc)
  then (Some Double, IndexNote 3 Double tc)
  else if String.eqb handKey "soft-8" && num_eq dealer 6 && (3 <=? tc)
  then (Some Double, IndexNote 3 Double tc)
  else if String.eqb handKey "pairs-9" && num_eq dealer 7 && (3 <=? tc)
  then (Some Split, IndexNote 3 Split tc)
  else (None, BasicStrategyNote).

(** [action] and [note] when the second [setRecommendation] call is
    reached: surrender, then deviations, then basic strategy. *)
Definition handTiers (st : State) : Action * Note :=
  let '(action, note) := surrenderTier st in
  let '(action, note) :=
    match action with
    | Some _ => (action, note)
    | None => deviationTier st
    end in
  match action with
  | Some a => (a, note)
  | None =>
      (getBasicStrategyActionLegacy (handType st) (handValue st)
         (dealerValue (dealerCard st)) (rules st), note)
  end.

(** The [action] and [note] properties of the object literal that
    [getRecommendationLegacy] builds for [setRecommendation]: the insurance
    tier returns first, with its own literal. *)
Definition legacyDecision (st : State) : Action * Note :=
  if insuranceFires st
  then (Insurance, InsuranceNote (getTrueCountRounded st))
  else handTiers st.

(** [actionColors[action] || 'gray']. *)
Definition actionColors (a : Action) : string :=
  match a with
  | Stand => "green"
  | Hit => "red"
  | Double => "yellow"
  | Split => "blue"
  | Insurance => "purple"
  | Surrender => "orange"
  end.

(** ** Identifier resolution *)

(** The names the module binds: its imports (lines 1-34) and its top-level
    declarations. *)
Definition moduleBindings : list string :=
  ["React"; "useState"; "useEffect"; "Button";
   "Card"; "CardContent"; "CardHeader"; "CardTitle";
   "Select"; "SelectContent"; "SelectItem"; "SelectTrigger"; "SelectValue";
   "Input"; "Badge"; "Separator";
   "Undo"; "RotateCcw"; "TrendingUp"; "AlertCircle"; "Check"; "X"; "Moon";
   "Sun"; "Zap"; "HelpCircle"; "ChevronDown"; "ChevronUp"; "Info";
   "cn"; "motion"; "AnimatePresence";
   "Tooltip"; "TooltipContent"; "TooltipProvider"; "TooltipTrigger";
   "DEFAULT_COMPREHENSIVE_RULES"; "calculateBaseHouseEdge";
   "calculateCountAdjustedEV"; "recommendBetUnits";
   "getCountingSystem"; "calculateTrueCount";
   "generateStrategyResponse"; "AdvancedRulesPanel";
   "RULE_INFO"; "FAQ_DATA"; "InfoTooltip"; "BlackjackTrainer"].

(** The names declared in the body of the component.  The properties of
    the global object (Math, Object, parseInt, JSON, ...) resolve as well;
    they are not listed, since neither of the two names looked up below is
    one of them. *)
Definition componentBindings : list string :=
  ["rules"; "setRules"; "showRulesPanel"; "setShowRulesPanel";
   "showFAQ"; "setShowFAQ"; "darkMode"; "setDarkMode";
   "runningCount"; "setRunningCount"; "cardsRemaining"; "setCardsRemaining";
   "history"; "setHistory"; "quickInput"; "setQuickInput";
   "handType"; "setHandType"; "handValue"; "setHandValue";
   "dealerCard"; "setDealerCard"; "recommendation"; "setRecommendation";
   "jsonResponse"; "setJsonResponse";
   "resetShoe"; "quickStartStandard"; "getTotalCardsRemaining";
   "getRemainingDecks"; "getTrueCount"; "getTrueCountRounded";
   "getCardsRemainingByCategory"; "applyCard"; "removeCard";
   "applyQuickCount"; "undo"; "processQuickInput"; "getRecommendation";
   "getBasicStrategyActionLegacy"; "getRecommendationLegacy";
   "getCountColor"; "getEVColor";
   "decksRemaining"; "tc"; "tcRounded"; "cardsByCategory"; "baseHouseEdge";
   "countAdjustedEV"; "betUnits"].

Definition inScope (identifier : string) : bool :=
  existsb (String.eqb identifier) (moduleBindings ++ componentBindings).

(** Reading an identifier inside a handler: the value [v] its binding
    holds, or a ReferenceError when nothing binds it. *)
Definition getValue {A : Type} (identifier : string) (v : A) : completion A :=
  if inScope identifier then Normal v else Throw (ReferenceError identifier).

Definition setRecommendation (r : Recommendation) (st : State) : State :=
  mkState (rules st) (runningCount st) (cardsRemaining st) (history st)
          (handType st) (handValue st) (dealerCard st) (Some r).

Section FreeIdentifiers.

(** What the two names that the handlers read without any import or
    declaration would denote if something bound them. *)
Variable DEFAULT_RULES : Rules.
Variable calculateEV : Z -> Rules -> Q.

(** [setRules(DEFAULT_RULES); resetShoe();].  The argument is evaluated
    before [setRules] is called.  After the new rules are rendered the
    shoe is the fresh shoe of those rules. *)
Definition quickStartStandard (st : State) : completion State :=
  bind (getValue "DEFAULT_RULES" DEFAULT_RULES)
       (fun r => Normal (resetShoe (setRules r st))).

(** Both [setRecommendation] calls build their argument first, and its
    [ev] property is the call [calculateEV(tc, rules)]. *)
Definition getRecommendationLegacy (st : State) : completion State :=
  let tc := getTrueCountRounded st in
  let '(action, note) := legacyDecision st in
  bind (getValue "calculateEV" calculateEV)
       (fun f =>
          Normal (setRecommendation
                    (mkRecommendation action note (f tc (rules st))
                                      (actionColors action)) st)).

End FreeIdentifiers.

(** ** Values computed on every render (lines 446-452) *)

Record RenderValues : Type := mkRenderValues {
  decksRemaining : option Q;
  tc : Q;
  tcRounded : Z;
  baseHouseEdge : Q;
  countAdjustedEV : Q;
  betUnits : Q
}.

Section Render.

(** Imported from [CountingSystems] and [RulesEngine]. *)
Variable calculateTrueCount : Z -> option Q -> string -> Q.
Variable calculateBaseHouseEdge : Rules -> Q.
Variable calculateCountAdjustedEV : Q -> Q -> Rules -> Q.
Variable recommendBetUnits : Q -> Rules -> Q.

Definition render (st : State) : RenderValues :=
  let decksRemaining := getRemainingDecks st in
  let tc :=
    calculateTrueCount (runningCount st) decksRemaining
                       (countingSystem (rules st)) in
  let tcRounded := Math_round tc in
  let baseHouseEdge := calculateBaseHouseEdge (rules st) in
  let countAdjustedEV := calculateCountAdjustedEV baseHouseEdge tc (rules st) in
  let betUnits := recommendBetUnits tc (rules st) in
  mkRenderValues decksRemaining tc tcRounded baseHouseEdge countAdjustedEV
                 betUnits.

End Render.

(** ** Operation sequences *)

Inductive Op : Type :=
| OpApply (card : string)
| OpRemove (card : string)
| OpQuickApply (value : Z)
| OpUndo
| OpReset.

Definition step (gcs : string -> CountingSystem) (st : State) (op : Op) : State :=
  match op with
  | OpApply card => applyCard gcs card st
  | OpRemove card => removeCard gcs card st
  | OpQuickApply value => applyQuickCount value st
  | OpUndo => undo st
  | OpReset => resetShoe st
  end.

Definition run (gcs : string -> CountingSystem) (st : State) (ops : list Op)
  : State :=
  fold_left (step gcs) ops st.

(** ** Example data *)

(** The balanced level-1 system: 2-6 count +1, 7-9 count 0, 10 and A -1. *)
Definition hiLo : CountingSystem :=
  mkCountingSystem
    (list_to_map
       [("2", 1); ("3", 1); ("4", 1); ("5", 1); ("6", 1);
        ("7", 0); ("8", 0); ("9", 0); ("10", -1); ("A", -1)]).

Definition exampleRules (decks : Z) : Rules :=
  mkRules decks "hi-lo" true false true.

(** The state of the first render with the hand selectors at their
    initial values, after the effect has reset the shoe. *)
Definition freshState (r : Rules) : State :=
  resetShoe (mkState r 0 ∅ [] "hard" "16" "10" None).

(** ** Predicates of the properties *)

(** The order in which each quick-count button tries the ranks. *)
Definition bucketOrder (value : Z) : list string :=
  if value =? 1 then ["2"; "3"; "4"; "5"; "6"]
  else if value =? 0 then ["7"; "8"; "9"]
  else if value =? -1 then ["10"; "A"]
  else [].

(** The state [applyQuickCount] produces when it settles on [card], whose
    count is [n]. *)
Definition quickCounted (value : Z) (card : string) (n : Z) (st : State) : State :=
  mkState (rules st) (runningCount st + value)
          (<[card := Int (n - 1)]> (cardsRemaining st))
          (history st ++ [QuickEntry value card (runningCount st) (cardsRemaining st)])
          (handType st) (handValue st) (dealerCard st) (recommendation st).

(** Every rank holds an integer count between 0 and its capacity. *)
Definition withinCapacity (r : Rules) (m : gmap string jsnum) : Prop :=
  forall card, In card ranks ->
    exists n, m !! card = Some (Int n) /\ 0 <= n <= capacity r card.

(** The invariant of the session: the rules are the ones the shoe was
    filled for, and the current shoe and every snapshot that [undo] can
    bring back are within capacity. *)
Definition sessionInvariant (r : Rules) (st : State) : Prop :=
  rules st = r
  /\ withinCapacity r (cardsRemaining st)
  /\ Forall (fun e => withinCapacity r (entry_remaining e)) (history st).

(** A count that is not negative; NaN is not a count at all. *)
Definition nonNegative (v : jsnum) : Prop :=
  match v with Int n => 0 <= n | NaN => True end.

(** No entry of the shoe, and of no snapshot in the history, is negative. *)
Definition noNegativeEntry (st : State) : Prop :=
  map_Forall (fun _ v => nonNegative v) (cardsRemaining st)
  /\ Forall (fun e => map_Forall (fun _ v => nonNegative v) (entry_remaining e))
            (history st).

(** The keys are exactly the ten ranks and each holds an integer. *)
Definition tenCounts (m : gmap string jsnum) : Prop :=
  dom m = list_to_set ranks /\ map_Forall (fun _ v => v <> NaN) m.

Definition tenCountsSession (st : State) : Prop :=
  tenCounts (cardsRemaining st)
  /\ Forall (fun e => tenCounts (entry_remaining e)) (history st).

(** An operation on one of the ten ranks, or one that takes no rank. *)
Definition validOp (op : Op) : Prop :=
  match op with
  | OpApply card | OpRemove card => In card ranks
  | OpQuickApply _ | OpUndo | OpReset => True
  end.

(** The sum of the counts over a list of keys. *)
Definition sumOver (m : gmap string jsnum) (keys : list string) : Z :=
  foldr (fun k acc => js_or0 (m !! k) + acc) 0 keys.

(** The cells after a handler that throws before its first setter call are
    the cells it started from. *)
Definition cellsAfter (st : State) (c : completion State) : State :=
  match c with
  | Normal st' => st'
  | Throw _ => st
  end.

(** *** The selections the component offers *)

(** The buttons of the hand panel set [handType] and [handValue] together:
    the hard totals 4 to 20 and the soft values 2 to 9 through
    [v.toString()], the ten pair ranks as they are.  The dealer buttons set
    one of the ten ranks. *)
Definition hardValues : list string :=
  ["4"; "5"; "6"; "7"; "8"; "9"; "10"; "11"; "12"; "13"; "14"; "15"; "16";
   "17"; "18"; "19"; "20"].

Definition softValues : list string := ["2"; "3"; "4"; "5"; "6"; "7"; "8"; "9"].

Definition member (s : string) (l : list string) : bool :=
  existsb (String.eqb s) l.

Definition reachableQuery (handType handValue dealerCard : string) : bool :=
  member dealerCard ranks
  && ((String.eqb handType "hard" && member handValue hardValues)
      || (String.eqb handType "soft" && member handValue softValues)
      || (String.eqb handType "pairs" && member handValue ranks)).

Definition answered (entry : option Action) : bool :=
  match entry with Some _ => true | None => false end.

(** Every offered selection is answered from inside its hand-type branch. *)
Definition coveredBy (dasRule : bool) : bool :=
  forallb (fun dealerCard =>
    let dealer := dealerValue dealerCard in
    let r := mkRules 0 "" false false dasRule in
    forallb (fun v => answered (strategyEntry "hard" v dealer r)) hardValues
    && forallb (fun v => answered (strategyEntry "soft" v dealer r)) softValues
    && forallb (fun v => answered (strategyEntry "pairs" v dealer r)) ranks)
    ranks.

(** *** Example states *)

(** A level-1 system that does not count the 2 (Hi-Opt I). *)
Definition hiOptI : CountingSystem :=
  mkCountingSystem
    (list_to_map
       [("2", 0); ("3", 1); ("4", 1); ("5", 1); ("6", 1);
        ("7", 0); ("8", 0); ("9", 0); ("10", -1); ("A", 0)]).

(** One deck with the four 2s already dealt. *)
Definition twosDealt : State :=
  run (fun _ => hiLo) (freshState (exampleRules 1))
      [OpApply "2"; OpApply "2"; OpApply "2"; OpApply "2"].

(** One deck, hard 16 against the ace, after a 2, 3, 4 and 5: running
    count 4 with 48 cards left, true count about 4.33, rounded 4. *)
Definition aceUp : State :=
  run (fun _ => hiLo)
      (resetShoe (mkState (exampleRules 1) 0 ∅ [] "hard" "16" "A" None))
      [OpApply "2"; OpApply "3"; OpApply "4"; OpApply "5"].

(** Three decks after 52 cards: twelve 7s, twelve 8s, eleven 9s, nine 10s
    and eight 2s.  The running count is -1 with 104 cards, two decks, left. *)
Definition halfBelowZero : State :=
  run (fun _ => hiLo) (freshState (exampleRules 3))
      (repeat (OpApply "7") 12 ++ repeat (OpApply "8") 12
       ++ repeat (OpApply "9") 11 ++ repeat (OpApply "10") 9
       ++ repeat (OpApply "2") 8).

(** Six decks after 96 cards (twenty-four 2s, 3s and 7s, twenty-one 10s,
    three 8s): running count 27 with 216 cards left.  The exact quotient is
    13/2. *)
Definition belowSixAndHalf : State :=
  run (fun _ => hiLo) (freshState (exampleRules 6))
      (repeat (OpApply "2") 24 ++ repeat (OpApply "3") 24
       ++ repeat (OpApply "7") 24 ++ repeat (OpApply "10") 21
       ++ repeat (OpApply "8") 3).

(** Six decks after 192 cards (the ninety-six 10s, four aces, twenty-four
    2s, 3s and 4s, thirteen 5s, seven 7s): running count -15 with 120 cards
    left.  The exact quotient is -13/2. *)
Definition belowMinusSixAndHalf : State :=
  run (fun _ => hiLo) (freshState (exampleRules 6))
      (repeat (OpApply "10") 96 ++ repeat (OpApply "A") 4
       ++ repeat (OpApply "2") 24 ++ repeat (OpApply "3") 24
       ++ repeat (OpApply "4") 24 ++ repeat (OpApply "5") 13
       ++ repeat (OpApply "7") 7).

(** Two decks, hard 11 against the ace, insurance offered, after [n]
    fives: running count [n]. *)
Definition elevenAgainstAce (n : nat) : State :=
  run (fun _ => hiLo)
      (resetShoe (mkState (exampleRules 2) 0 ∅ [] "hard" "11" "A" None))
      (repeat (OpApply "5") n).

(** ** Text entry of cards *)

(** [String.prototype.toUpperCase] on the letters a to z; every other
    one-byte character is its own upper case.  Letters beyond the one-byte
    characters are left as they are: the buttons, the placeholder of the
    input and every rank are written in one-byte characters. *)
Definition toUpperChar (c : ascii) : ascii :=
  let n := nat_of_ascii c in
  if ((97 <=? n) && (n <=? 122))%nat then ascii_of_nat (n - 32) else c.

Fixpoint toUpperCase (s : string) : string :=
  match s with
  | EmptyString => EmptyString
  | String c rest => String (toUpperChar c) (toUpperCase rest)
  end.

(** [s.split(separator)] for a one-character separator: the pieces between
    the separators, one piece (the empty string) for the empty string. *)
Fixpoint split (separator : ascii) (s : string) : list string :=
  match s with
  | EmptyString => [EmptyString]
  | String c rest =>
      if Ascii.eqb c separator then EmptyString :: split separator rest
      else
        match split separator rest with
        | piece :: pieces => String c piece :: pieces
        | [] => [String c EmptyString]
        end
  end.

(** [s] read backwards, in front of [acc]. *)
Fixpoint reverseOnto (s acc : string) : string :=
  match s with
  | EmptyString => acc
  | String c rest => reverseOnto rest (String c acc)
  end.

(** [trimStart] on a string that is given last byte first. *)
Fixpoint trimReversed (s : string) : string :=
  match s with
  | EmptyString => s
  | String c1 rest1 =>
      if isWhiteSpace c1 then trimReversed rest1
      else
        match rest1 with
        | EmptyString => s
        | String c2 rest2 =>
            if isWhiteSpace2 c2 c1 then trimReversed rest2
            else
              match rest2 with
              | EmptyString => s
              | String c3 rest3 =>
                  if isWhiteSpace3 c3 c2 c1 then trimReversed rest3 else s
              end
        end
  end.

Definition trimEnd (s : string) : string :=
  reverseOnto (trimReversed (reverseOnto s EmptyString)) EmptyString.

(** [s.trim()]. *)
Definition trim (s : string) : string := trimEnd (trimStart s).

(** [quickInput.toUpperCase().split(',').map(c => c.trim())]. *)
Definition quickInputCards (quickInput : string) : list string :=
  map trim (split "," (toUpperCase quickInput)).

(** [['J', 'Q', 'K'].includes(card) ? '10' : card]. *)
Definition normalizedCard (card : string) : string :=
  if existsb (String.eqb card) ["J"; "Q"; "K"] then "10" else card.

(** The test of [processQuickInput] on an entry:
    [countingSystem.tags[normalizedCard] !== undefined &&
     cardsRemaining[normalizedCard] > 0]. *)
Definition entryAccepted (gcs : string -> CountingSystem) (st : State)
    (card : string) : bool :=
  let countingSystem := gcs (countingSystem (rules st)) in
  match tags countingSystem !! normalizedCard card with
  | Some _ => js_gt (cardsRemaining st !! normalizedCard card) 0
  | None => false
  end.

(** [applyCard(card)] called inside a handler of the render [rendered],
    after earlier calls of the same handler left the cells [pending]:
    [applyCard] computes from the rendered values, and unless it returns
    early its three setters replace what is pending. *)
Definition callApplyCard (gcs : string -> CountingSystem) (rendered : State)
    (card : string) (pending : State) : State :=
  if js_le (cardsRemaining rendered !! card) 0 then pending
  else
    let result := applyCard gcs card rendered in
    mkState (rules pending) (runningCount result) (cardsRemaining result)
            (history result)
            (handType pending) (handValue pending) (dealerCard pending)
            (recommendation pending).

(** The [cards.forEach(card => { ... })] of [processQuickInput], run in a
    handler of the render [rendered] with the cells [pending]. *)
Definition forEachCard (gcs : string -> CountingSystem) (rendered : State)
    (cards : list string) (pending : State) : State :=
  fold_left
    (fun pending card =>
       if entryAccepted gcs rendered card
       then callApplyCard gcs rendered (normalizedCard card) pending
       else pending)
    cards pending.

(** [processQuickInput], with the text of the input cell as argument (the
    handler ends by clearing that cell, which is not a cell of [State]). *)
Definition processQuickInput (gcs : string -> CountingSystem)
    (quickInput : string) (st : State) : State :=
  let cards := quickInputCards quickInput in
  forEachCard gcs st cards st.

(** ** The index deviations as a table *)

(** The threshold and the action that the chain of [deviationTier] holds
    for a hand key and a dealer value, read row by row. *)
Definition deviationIndex (handKey : string) (dealer : option Z)
  : option (Z * Action) :=
  if String.eqb handKey "hard-16" && num_eq dealer 10 then Some (0, Stand)
  else if String.eqb handKey "hard-15" && num_eq dealer 10 then Some (4, Stand)
  else if String.eqb handKey "hard-12" && num_eq dealer 3 then Some (2, Stand)
  else if String.eqb handKey "hard-12" && num_eq dealer 2 then Some (3, Stand)
  else if String.eqb handKey "hard-10" && (num_eq dealer 10 || num_eq dealer 11)
  then Some (4, Double)
  else if String.eqb handKey "hard-11" && num_eq dealer 11 then Some (1, Double)
  else if String.eqb handKey "hard-9" && num_eq dealer 2 then Some (1, Double)
  else if String.eqb handKey "hard-9" && num_eq dealer 7 then Some (3, Double)
  else if String.eqb handKey "soft-8" && num_eq dealer 6 then Some (3, Double)
  else if String.eqb handKey "pairs-9" && num_eq dealer 7 then Some (3, Split)
  else None.

(** The hand of the surrender block: hard 16 against 9, 10 or the ace,
    hard 15 against 10. *)
Definition inSurrenderSet (st : State) : Prop :=
  handType st = "hard"
  /\ ((parseInt (handValue st) = Some 16
       /\ (dealerValue (dealerCard st) = Some 9
           \/ dealerValue (dealerCard st) = Some 10
           \/ dealerValue (dealerCard st) = Some 11))
      \/ (parseInt (handValue st) = Some 15
          /\ dealerValue (dealerCard st) = Some 10)).

(** ** Predicates of the further properties *)

(** What an entry of the history added to the running count: the tag
    weight for a dealt card, the button value for a quick count. *)
Definition entry_delta (e : HistoryEntry) : Z :=
  match e with
  | CardEntry _ weight _ _ => weight
  | QuickEntry quick _ _ _ => quick
  end.

Definition sumDeltas (h : list HistoryEntry) : Z :=
  foldr (fun e acc => entry_delta e + acc) 0 h.

(** Each entry holds the running count that the entries before it add up
    to, and the current running count is the sum over all of them. *)
Definition countChained (st : State) : Prop :=
  runningCount st = sumDeltas (history st)
  /\ forall pre e post,
       history st = (pre ++ e :: post)%list -> entry_rc e = sumDeltas pre.

(** A deal: a card applied or a quick count. *)
Definition dealOp (op : Op) : Prop :=
  match op with
  | OpApply _ | OpQuickApply _ => True
  | OpRemove _ | OpUndo | OpReset => False
  end.

(** Any operation but the manual correction. *)
Definition noRemoveOp (op : Op) : Prop :=
  match op with
  | OpRemove _ => False
  | OpApply _ | OpQuickApply _ | OpUndo | OpReset => True
  end.

(** [undo] pressed [n] times. *)
Definition undoTimes (n : nat) (st : State) : State := Nat.iter n undo st.

(** The unit roundoff of a double, 2^-53: rounding to the nearest double
    moves a number by at most this fraction of itself. *)
Definition roundoff : Q := (1 # 9007199254740992)%Q.

(** Some key of the shoe holds NaN. *)
Definition hasNaN (m : gmap string jsnum) : Prop :=
  exists k, m !! k = Some NaN.

(** * Properties *)

(** ** The embedding on the scenarios of the specification *)

Example parseInt_examples :
  parseInt "16" = Some 16 /\ parseInt "10" = Some 10 /\ parseInt "A" = None
  /\ parseInt " 7up" = Some 7 /\ parseInt "-3" = Some (-3)
  /\ parseInt "0x1F" = Some 31 /\ parseInt "" = None.
Proof. repeat split. Qed.

(** Six decks, one 5 dealt: running count 1, 23 fives left, 311/52 decks
    (about 5.98), true count about 0.167, rounded 0. *)
Example scenario_one_five_dealt :
  let st := applyCard (fun _ => hiLo) "5" (freshState (exampleRules 6)) in
  runningCount st = 1
  /\ cardsRemaining st !! "5" = Some (Int 23)
  /\ getTotalCardsRemaining st = Int 311
  /\ (exists decks, getRemainingDecks st = Some decks
                    /\ Qle_bool (598 # 100) decks && Qle_bool decks (599 # 100) = true)
  /\ Qle_bool (167 # 1000) (getTrueCount st)
     && Qle_bool (getTrueCount st) (168 # 1000) = true
  /\ getTrueCountRounded st = 0.
Proof.
  repeat (split; [reflexivity|]).
  split; [eexists; split; [reflexivity | vm_compute; reflexivity]|].
  split; vm_compute; reflexivity.
Qed.

(** The quotients are doubles.  With 216 cards and a running count of 27
    the source computes 27 / (216 / 52) = 6.499999999999999, the double
    next below 13/2, which rounds to 6; with 120 cards and a running count
    of -15 it computes -6.500000000000001, which rounds to -7.  Where both
    divisions are exact, so is the result (104 cards, running count -1). *)
Example true_count_is_a_double :
  runningCount belowSixAndHalf = 27
  /\ getTotalCardsRemaining belowSixAndHalf = Int 216
  /\ (getTrueCount belowSixAndHalf == (13 # 2) - 1 / inject_Z (2 ^ 50))%Q
  /\ getTrueCountRounded belowSixAndHalf = 6
  /\ runningCount belowMinusSixAndHalf = -15
  /\ getTotalCardsRemaining belowMinusSixAndHalf = Int 120
  /\ (getTrueCount belowMinusSixAndHalf == - (13 # 2) - 1 / inject_Z (2 ^ 50))%Q
  /\ getTrueCountRounded belowMinusSixAndHalf = -7
  /\ (toDouble (1 # 3) == 6004799503160661 / inject_Z (2 ^ 54))%Q
  /\ (toDouble (inject_Z 104 / 52) == 2)%Q.
Proof. repeat split; vm_compute; reflexivity. Qed.

(** Applying a depleted rank changes nothing. *)
Example apply_depleted_rank :
  applyCard (fun _ => hiLo) "2" twosDealt = twosDealt.
Proof. reflexivity. Qed.

(** Late surrender, when enabled, precedes the deviations. *)
Example surrender_precedes_deviation :
  legacyDecision
    (mkState (mkRules 6 "hi-lo" true true true) 0
             (initialCards (exampleRules 6)) [] "hard" "16" "10" None)
  = (Surrender, LateSurrenderNote).
Proof. reflexivity. Qed.

(** ** Helper lemmas *)

Lemma state_eta (st : State) :
  mkState (rules st) (runningCount st) (cardsRemaining st) (history st)
          (handType st) (handValue st) (dealerCard st) (recommendation st) = st.
Proof. destruct st; reflexivity. Qed.

Lemma toDouble_zero (x : Q) : (x == 0)%Q -> toDouble x = 0%Q.
Proof.
  intros Hx. unfold toDouble.
  rewrite (proj2 (Qeq_bool_iff x 0) Hx). reflexivity.
Qed.

Lemma js_gt_true (v : option jsnum) (k : Z) :
  js_gt v k = true -> exists n, v = Some (Int n) /\ k < n.
Proof.
  destruct v as [[n|]|]; simpl; try discriminate.
  intros H. exists n. split; [reflexivity | lia].
Qed.

Lemma firstAvailable_some (m : gmap string jsnum) (cards : list string) (card : string) :
  firstAvailable m cards = Some card ->
  exists pre post,
    cards = (pre ++ card :: post)%list
    /\ Forall (fun c => js_gt (m !! c) 0 = false) pre
    /\ js_gt (m !! card) 0 = true.
Proof.
  induction cards as [|c rest IH]; simpl; [discriminate|].
  destruct (js_gt (m !! c) 0) eqn:Hc.
  - intros [= <-]. exists [], rest. auto.
  - intros H. destruct (IH H) as (pre & post & -> & Hpre & Hcard).
    exists (c :: pre), post. auto.
Qed.

Lemma firstAvailable_none (m : gmap string jsnum) (cards : list string) :
  firstAvailable m cards = None <->
  Forall (fun c => js_gt (m !! c) 0 = false) cards.
Proof.
  induction cards as [|c rest IH]; simpl.
  - split; auto.
  - destruct (js_gt (m !! c) 0) eqn:Hc.
    + split; [discriminate|]. intros H. inversion H; congruence.
    + rewrite IH. split; [auto | intros H; inversion H; auto].
Qed.

Lemma firstAvailable_split (m : gmap string jsnum) (pre post : list string) (card : string) :
  Forall (fun c => js_gt (m !! c) 0 = false) pre ->
  js_gt (m !! card) 0 = true ->
  firstAvailable m (pre ++ card :: post)%list = Some card.
Proof.
  induction 1 as [|c pre Hc _ IH]; simpl; intros Hcard.
  - rewrite Hcard. reflexivity.
  - rewrite Hc. auto.
Qed.

Lemma cardToRemove_firstAvailable (value : Z) (m : gmap string jsnum) :
  cardToRemove value m = firstAvailable m (bucketOrder value).
Proof.
  unfold cardToRemove, bucketOrder.
  destruct (value =? 1); [reflexivity|].
  destruct (value =? 0); [reflexivity|].
  destruct (value =? -1); [|reflexivity].
  simpl. destruct (js_gt (m !! "10") 0); [reflexivity|].
  destruct (js_gt (m !! "A") 0); reflexivity.
Qed.

Lemma cardToRemove_available (value : Z) (m : gmap string jsnum) (card : string) :
  cardToRemove value m = Some card ->
  exists n, m !! card = Some (Int n) /\ 0 < n.
Proof.
  rewrite cardToRemove_firstAvailable. intros H.
  destruct (firstAvailable_some _ _ _ H) as (pre & post & _ & _ & Hgt).
  apply js_gt_true in Hgt. exact Hgt.
Qed.

(** ** Apply followed by undo *)

(** C1.  For every rank whose remaining count is positive, [applyCard]
    followed by [undo] gives back the state the apply started from: the
    rank-to-remaining mapping, the running count and the history (and every
    other cell) have exactly their earlier values. *)
Theorem apply_undo_roundtrip
    (gcs : string -> CountingSystem) (card : string) (st : State) (n : Z) :
  cardsRemaining st !! card = Some (Int n) ->
  0 < n ->
  undo (applyCard gcs card st) = st.
Proof.
  intros Hcard Hpos. unfold applyCard. rewrite Hcard. simpl.
  destruct (n <=? 0) eqn:Hle; [lia|].
  unfold undo. simpl.
  rewrite last_snoc, removelast_last. simpl.
  apply state_eta.
Qed.

Lemma apply_undo_roundtrip_witness :
  let st := applyCard (fun _ => hiLo) "10" (freshState (exampleRules 6)) in
  cardsRemaining st !! "5" = Some (Int 24)
  /\ 0 < 24
  /\ undo (applyCard (fun _ => hiLo) "5" st) = st.
Proof.
  split; [reflexivity|]. split; [lia|].
  apply (apply_undo_roundtrip (fun _ => hiLo) "5" _ 24); [reflexivity | lia].
Defined.

(** ** The capacity invariant *)

Lemma initialCards_lookup (r : Rules) (card : string) :
  In card ranks ->
  initialCards r !! card = Some (Int (capacity r card)).
Proof.
  unfold ranks. simpl.
  intros H; repeat (destruct H as [<- | H]; [reflexivity|]); destruct H.
Qed.

Lemma withinCapacity_initial (r : Rules) :
  0 <= numDecks r -> withinCapacity r (initialCards r).
Proof.
  intros Hdecks card Hcard. exists (capacity r card).
  split; [apply initialCards_lookup; assumption|].
  unfold capacity. destruct (String.eqb card "10"); lia.
Qed.

Lemma withinCapacity_insert (r : Rules) (m : gmap string jsnum) (card : string) (v : jsnum) :
  withinCapacity r m ->
  (In card ranks -> exists n, v = Int n /\ 0 <= n <= capacity r card) ->
  withinCapacity r (<[card := v]> m).
Proof.
  intros Hm Hv c Hc. destruct (decide (card = c)) as [<- | Hne].
  - destruct (Hv Hc) as (n & -> & Hn). exists n.
    rewrite lookup_insert_eq. auto.
  - rewrite lookup_insert_ne by assumption. apply Hm, Hc.
Qed.

Lemma sessionInvariant_reset (r : Rules) (st : State) :
  0 <= numDecks r -> rules st = r -> sessionInvariant r (resetShoe st).
Proof.
  intros Hdecks Hr. unfold sessionInvariant, resetShoe. simpl. rewrite Hr.
  split; [reflexivity|]. split; [apply withinCapacity_initial; assumption|].
  constructor.
Qed.

Lemma sessionInvariant_apply (gcs : string -> CountingSystem) (r : Rules)
    (card : string) (st : State) :
  sessionInvariant r st -> sessionInvariant r (applyCard gcs card st).
Proof.
  intros (Hr & Hshoe & Hhist). unfold applyCard.
  destruct (js_le (cardsRemaining st !! card) 0) eqn:Hle; [repeat split; assumption|].
  unfold sessionInvariant. simpl. split; [assumption|]. split.
  - apply withinCapacity_insert; [assumption|].
    intros Hc. destruct (Hshoe card Hc) as (n & Hn & Hbound).
    rewrite Hn in Hle |- *. simpl in Hle |- *.
    exists (n - 1). split; [reflexivity | lia].
  - apply Forall_app. split; [assumption|]. constructor; [assumption | constructor].
Qed.

Lemma sessionInvariant_remove (gcs : string -> CountingSystem) (r : Rules)
    (card : string) (st : State) :
  sessionInvariant r st -> sessionInvariant r (removeCard gcs card st).
Proof.
  intros (Hr & Hshoe & Hhist). unfold removeCard.
  destruct (js_ge (cardsRemaining st !! card) (capacity (rules st) card)) eqn:Hge;
    [repeat split; assumption|].
  unfold sessionInvariant. simpl. split; [assumption|]. split; [|assumption].
  apply withinCapacity_insert; [assumption|].
  intros Hc. destruct (Hshoe card Hc) as (n & Hn & Hbound).
  rewrite Hn, Hr in Hge. rewrite Hn. simpl in Hge |- *.
  exists (n + 1). split; [reflexivity | lia].
Qed.

Lemma sessionInvariant_quick (r : Rules) (value : Z) (st : State) :
  sessionInvariant r st -> sessionInvariant r (applyQuickCount value st).
Proof.
  intros (Hr & Hshoe & Hhist). unfold applyQuickCount.
  destruct (js_le _ 0); [repeat split; assumption|].
  destruct (cardToRemove value (cardsRemaining st)) as [card|] eqn:Hpick;
    [|repeat split; assumption].
  destruct (cardToRemove_available _ _ _ Hpick) as (n & Hn & Hpos).
  unfold sessionInvariant. simpl. split; [assumption|]. split.
  - apply withinCapacity_insert; [assumption|].
    intros Hc. destruct (Hshoe card Hc) as (n' & Hn' & Hbound).
    rewrite Hn. simpl. exists (n - 1). split; [reflexivity|].
    rewrite Hn in Hn'. injection Hn' as <-. lia.
  - apply Forall_app. split; [assumption|]. constructor; [assumption | constructor].
Qed.

Lemma Forall_removelast {A : Type} (P : A -> Prop) (l : list A) :
  Forall P l -> Forall P (removelast l).
Proof.
  induction 1 as [|x l Hx Hl IH]; simpl; [constructor|].
  destruct l; [constructor|]. constructor; assumption.
Qed.

Lemma last_In {A : Type} (l : list A) (x : A) : last l = Some x -> In x l.
Proof.
  induction l as [|y l IH]; simpl; [discriminate|].
  destruct l as [|z l]; [intros [= ->]; left; reflexivity|].
  intros H. right. apply IH. exact H.
Qed.

Lemma sessionInvariant_undo (r : Rules) (st : State) :
  sessionInvariant r st -> sessionInvariant r (undo st).
Proof.
  intros (Hr & Hshoe & Hhist). unfold undo.
  destruct (last (history st)) as [e|] eqn:Hlast; [|repeat split; assumption].
  unfold sessionInvariant. simpl. split; [assumption|]. split.
  - rewrite Forall_forall in Hhist. apply Hhist.
    apply list_elem_of_In, last_In, Hlast.
  - apply Forall_removelast. assumption.
Qed.

Lemma sessionInvariant_step (gcs : string -> CountingSystem) (r : Rules)
    (op : Op) (st : State) :
  0 <= numDecks r -> sessionInvariant r st -> sessionInvariant r (step gcs st op).
Proof.
  intros Hdecks Hinv. destruct op; simpl.
  - apply sessionInvariant_apply; assumption.
  - apply sessionInvariant_remove; assumption.
  - apply sessionInvariant_quick; assumption.
  - apply sessionInvariant_undo; assumption.
  - apply sessionInvariant_reset; [assumption | apply Hinv].
Qed.

Lemma sessionInvariant_run (gcs : string -> CountingSystem) (r : Rules)
    (ops : list Op) (st : State) :
  0 <= numDecks r -> sessionInvariant r st -> sessionInvariant r (run gcs st ops).
Proof.
  intros Hdecks. revert st. unfold run.
  induction ops as [|op ops IH]; simpl; intros st Hinv; [assumption|].
  apply IH, sessionInvariant_step; assumption.
Qed.

(** C2.  Start from the fresh shoe of any rules with a non-negative deck
    count and run any sequence of apply, remove, quick-apply, undo and
    reset.  After each operation (that is, after every prefix of the
    sequence) every rank's remaining count is an integer between 0 and its
    capacity, 16 per deck for '10' and 4 per deck for every other rank. *)
Theorem remaining_within_capacity
    (gcs : string -> CountingSystem) (st0 : State) (ops : list Op) (k : nat)
    (card : string) :
  0 <= numDecks (rules st0) ->
  In card ranks ->
  exists n,
    cardsRemaining (run gcs (resetShoe st0) (take k ops)) !! card = Some (Int n)
    /\ 0 <= n
    /\ n <= (if String.eqb card "10"
             then numDecks (rules st0) * 16 else numDecks (rules st0) * 4).
Proof.
  intros Hdecks Hcard.
  assert (Hinv : sessionInvariant (rules st0) (run gcs (resetShoe st0) (take k ops))).
  { apply sessionInvariant_run; [assumption|].
    apply sessionInvariant_reset; [assumption | reflexivity]. }
  destruct Hinv as (_ & Hshoe & _).
  destruct (Hshoe card Hcard) as (n & Hn & Hlo & Hhi).
  exists n. auto.
Qed.

Lemma remaining_within_capacity_witness :
  let ops := [OpApply "10"; OpQuickApply 1; OpRemove "10"; OpRemove "10";
              OpUndo; OpQuickApply (-1); OpReset; OpApply "A"] in
  0 <= numDecks (exampleRules 2)
  /\ In "10" ranks
  /\ exists n,
       cardsRemaining
         (run (fun _ => hiLo) (resetShoe (freshState (exampleRules 2))) (take 6 ops))
         !! "10" = Some (Int n)
       /\ 0 <= n
       /\ n <= numDecks (exampleRules 2) * 16.
Proof.
  split; [simpl; lia|]. split; [simpl; tauto|].
  apply (remaining_within_capacity (fun _ => hiLo) (freshState (exampleRules 2))
           _ 6%nat "10"); [simpl; lia | simpl; tauto].
Defined.

(** ** The total of the shoe *)

Lemma jsadd_swap (y a b : jsnum) : jsadd (jsadd y a) b = jsadd (jsadd y b) a.
Proof. destruct y, a, b; simpl; try reflexivity. f_equal. lia. Qed.

Lemma sumValues_empty : sumValues ∅ = Int 0.
Proof. unfold sumValues. apply map_fold_empty. Qed.

Lemma sumValues_insert (m : gmap string jsnum) (k : string) (v : jsnum) :
  m !! k = None -> sumValues (<[k := v]> m) = jsadd (sumValues m) v.
Proof.
  intros Hk. unfold sumValues.
  rewrite map_fold_insert_L; [reflexivity | | assumption].
  intros j1 j2 z1 z2 y _ _ _. apply jsadd_swap.
Qed.

Lemma sumValues_delete (m : gmap string jsnum) (k : string) (v : jsnum) :
  m !! k = Some v -> sumValues m = jsadd (sumValues (delete k m)) v.
Proof.
  intros Hk. rewrite <- (insert_delete_id m k v Hk) at 1.
  apply sumValues_insert, lookup_delete_eq.
Qed.

(** With no negative entry, the total is NaN or an integer at least as
    large as every entry. *)
Lemma sumValues_bound (m : gmap string jsnum) :
  (forall k v, m !! k = Some v -> nonNegative v) ->
  match sumValues m with
  | Int t => 0 <= t /\ forall k n, m !! k = Some (Int n) -> n <= t
  | NaN => True
  end.
Proof.
  induction m as [|k v m Hk IH] using map_ind.
  - intros _. rewrite sumValues_empty. split; [lia|].
    intros k n H. rewrite lookup_empty in H. discriminate.
  - intros Hall. rewrite sumValues_insert by assumption.
    assert (Hm : forall k' v', m !! k' = Some v' -> nonNegative v').
    { intros k' v' H. apply (Hall k'). rewrite lookup_insert_ne; [assumption|].
      intros ->. congruence. }
    specialize (IH Hm).
    assert (Hv : nonNegative v) by (apply (Hall k), lookup_insert_eq).
    destruct (sumValues m) as [t|]; [|exact I].
    destruct v as [a|]; [|exact I]. simpl in Hv |- *.
    destruct IH as [Ht IH]. split; [lia|].
    intros k' n H. destruct (decide (k = k')) as [<- | Hne].
    + rewrite lookup_insert_eq in H. injection H as ->. lia.
    + rewrite lookup_insert_ne in H by assumption.
      specialize (IH k' n H). lia.
Qed.

(** A shoe without negative entries that still holds a card of some rank
    passes the guard [getTotalCardsRemaining() <= 0] of [applyQuickCount]. *)
Lemma total_guard_passes (st : State) (card : string) (n : Z) :
  (forall k v, cardsRemaining st !! k = Some v -> nonNegative v) ->
  cardsRemaining st !! card = Some (Int n) ->
  0 < n ->
  js_le (Some (getTotalCardsRemaining st)) 0 = false.
Proof.
  intros Hall Hcard Hpos. unfold getTotalCardsRemaining.
  pose proof (sumValues_bound _ Hall) as Hsum.
  destruct (sumValues (cardsRemaining st)) as [t|]; [|reflexivity].
  destruct Hsum as [_ Hsum]. specialize (Hsum card n Hcard). simpl. lia.
Qed.

(** ** Shoes a session can reach *)

Lemma nonNegative_insert (m : gmap string jsnum) (card : string) (v : jsnum) :
  map_Forall (fun _ v => nonNegative v) m ->
  nonNegative v ->
  map_Forall (fun _ v => nonNegative v) (<[card := v]> m).
Proof. intros Hm Hv. apply map_Forall_insert_2; assumption. Qed.

Lemma nonNegative_initial (r : Rules) :
  0 <= numDecks r -> map_Forall (fun _ v => nonNegative v) (initialCards r).
Proof.
  intros Hdecks. unfold initialCards. simpl.
  repeat (apply nonNegative_insert; [|simpl; lia]).
  apply map_Forall_empty.
Qed.

Lemma nonNegative_pred (m : gmap string jsnum) (card : string) :
  map_Forall (fun _ v => nonNegative v) m ->
  js_le (m !! card) 0 = false ->
  nonNegative (js_pred (m !! card)).
Proof.
  intros _. destruct (m !! card) as [[n|]|]; simpl; intros H; [lia | exact I | exact I].
Qed.

Lemma nonNegative_succ (m : gmap string jsnum) (card : string) :
  map_Forall (fun _ v => nonNegative v) m ->
  nonNegative (js_succ (m !! card)).
Proof.
  intros Hm. destruct (m !! card) as [[n|]|] eqn:Hcard; simpl; try exact I.
  specialize (Hm card (Int n) Hcard). simpl in Hm. lia.
Qed.

Lemma noNegativeEntry_step (gcs : string -> CountingSystem) (op : Op) (st : State) :
  0 <= numDecks (rules st) ->
  noNegativeEntry st ->
  noNegativeEntry (step gcs st op) /\ rules (step gcs st op) = rules st.
Proof.
  intros Hdecks [Hshoe Hhist]. unfold noNegativeEntry.
  destruct op as [card | card | value | |]; simpl.
  - unfold applyCard.
    destruct (js_le (cardsRemaining st !! card) 0) eqn:Hle; [auto|]. simpl.
    repeat split.
    + apply nonNegative_insert; [assumption | apply nonNegative_pred; assumption].
    + apply Forall_app. split; [assumption|]. constructor; [assumption | constructor].
  - unfold removeCard.
    destruct (js_ge (cardsRemaining st !! card) _); [auto|]. simpl.
    repeat split; [|assumption].
    apply nonNegative_insert; [assumption | apply nonNegative_succ; assumption].
  - unfold applyQuickCount.
    destruct (js_le _ 0); [auto|].
    destruct (cardToRemove value (cardsRemaining st)) as [card|] eqn:Hpick; [|auto].
    destruct (cardToRemove_available _ _ _ Hpick) as (n & Hn & Hpos). simpl.
    repeat split.
    + apply nonNegative_insert; [assumption|]. rewrite Hn. simpl. lia.
    + apply Forall_app. split; [assumption|]. constructor; [assumption | constructor].
  - unfold undo.
    destruct (last (history st)) as [e|] eqn:Hlast; [|auto]. simpl.
    repeat split.
    + rewrite Forall_forall in Hhist. apply Hhist.
      apply list_elem_of_In, last_In, Hlast.
    + apply Forall_removelast. assumption.
  - repeat split; [apply nonNegative_initial; assumption | constructor].
Qed.

(** Every state that a session reaches from a fresh shoe, with a deck count
    that is not negative, has no negative entry: the hypothesis of
    [total_guard_passes] holds throughout. *)
Lemma reachable_noNegativeEntry (gcs : string -> CountingSystem) (st0 : State)
    (ops : list Op) :
  0 <= numDecks (rules st0) ->
  map_Forall (fun _ v => nonNegative v)
             (cardsRemaining (run gcs (resetShoe st0) ops)).
Proof.
  intros Hdecks.
  assert (H : forall st,
             0 <= numDecks (rules st) -> noNegativeEntry st ->
             noNegativeEntry (run gcs st ops)).
  { unfold run. induction ops as [|op ops IH]; simpl; intros st Hd Hst; [assumption|].
    destruct (noNegativeEntry_step gcs op st Hd Hst) as [Hnext Hrules].
    apply IH; [rewrite Hrules|]; assumption. }
  apply H; [assumption|]. split; [apply nonNegative_initial; assumption | constructor].
Qed.

Lemma tenCounts_initial (r : Rules) : tenCounts (initialCards r).
Proof.
  split.
  - unfold initialCards, ranks. simpl. rewrite !dom_insert_L, dom_empty_L.
    apply set_eq. intros x.
    rewrite !elem_of_union, !elem_of_singleton, !elem_of_empty. tauto.
  - unfold initialCards. simpl.
    repeat (apply map_Forall_insert_2; [discriminate|]).
    apply map_Forall_empty.
Qed.

Lemma tenCounts_insert (m : gmap string jsnum) (card : string) (n : Z) :
  tenCounts m -> In card ranks -> tenCounts (<[card := Int n]> m).
Proof.
  intros [Hdom Hint] Hcard. split.
  - rewrite dom_insert_L, Hdom.
    apply subseteq_union_1_L, singleton_subseteq_l.
    apply elem_of_list_to_set, list_elem_of_In. assumption.
  - apply map_Forall_insert_2; [discriminate | assumption].
Qed.

Lemma tenCounts_lookup (m : gmap string jsnum) (card : string) :
  tenCounts m -> In card ranks -> exists n, m !! card = Some (Int n).
Proof.
  intros [Hdom Hint] Hcard.
  assert (Hin : card ∈ dom m)
    by (rewrite Hdom; apply elem_of_list_to_set, list_elem_of_In; assumption).
  apply elem_of_dom in Hin as [[n|] Hv]; [eauto|].
  exfalso. apply (Hint card NaN Hv). reflexivity.
Qed.

Lemma bucketOrder_ranks (value : Z) (card : string) :
  In card (bucketOrder value) -> In card ranks.
Proof.
  unfold bucketOrder, ranks.
  destruct (value =? 1); [simpl; tauto|].
  destruct (value =? 0); [simpl; tauto|].
  destruct (value =? -1); simpl; tauto.
Qed.

Lemma cardToRemove_rank (value : Z) (m : gmap string jsnum) (card : string) :
  cardToRemove value m = Some card -> In card ranks.
Proof.
  rewrite cardToRemove_firstAvailable. intros H.
  destruct (firstAvailable_some _ _ _ H) as (pre & post & Horder & _).
  apply (bucketOrder_ranks value). rewrite Horder.
  apply in_or_app. right. left. reflexivity.
Qed.

Lemma tenCountsSession_step (gcs : string -> CountingSystem) (op : Op) (st : State) :
  validOp op -> tenCountsSession st -> tenCountsSession (step gcs st op).
Proof.
  intros Hop [Hshoe Hhist]. unfold tenCountsSession.
  destruct op as [card | card | value | |]; simpl in *.
  - unfold applyCard.
    destruct (js_le (cardsRemaining st !! card) 0); [auto|]. simpl.
    destruct (tenCounts_lookup _ _ Hshoe Hop) as [n Hn]. rewrite Hn. simpl.
    split; [apply tenCounts_insert; assumption|].
    apply Forall_app. split; [assumption|]. constructor; [assumption | constructor].
  - unfold removeCard.
    destruct (js_ge (cardsRemaining st !! card) _); [auto|]. simpl.
    destruct (tenCounts_lookup _ _ Hshoe Hop) as [n Hn]. rewrite Hn. simpl.
    split; [apply tenCounts_insert; assumption | assumption].
  - unfold applyQuickCount.
    destruct (js_le _ 0); [auto|].
    destruct (cardToRemove value (cardsRemaining st)) as [card|] eqn:Hpick; [|auto].
    destruct (cardToRemove_available _ _ _ Hpick) as (n & Hn & _).
    simpl. rewrite Hn. simpl.
    split; [apply tenCounts_insert; [assumption | eapply cardToRemove_rank; eassumption]|].
    apply Forall_app. split; [assumption|]. constructor; [assumption | constructor].
  - unfold undo.
    destruct (last (history st)) as [e|] eqn:Hlast; [|auto]. simpl. split.
    + rewrite Forall_forall in Hhist. apply Hhist.
      apply list_elem_of_In, last_In, Hlast.
    + apply Forall_removelast. assumption.
  - split; [apply tenCounts_initial | constructor].
Qed.

(** In a session that applies and removes only the ten ranks, the keys of
    the shoe stay exactly those ranks and every count stays an integer: the
    hypotheses of the category count hold throughout. *)
Lemma reachable_tenCounts (gcs : string -> CountingSystem) (st0 : State)
    (ops : list Op) :
  Forall validOp ops ->
  tenCounts (cardsRemaining (run gcs (resetShoe st0) ops)).
Proof.
  intros Hops.
  assert (H : forall st, tenCountsSession st -> tenCountsSession (run gcs st ops)).
  { unfold run. induction Hops as [|op ops Hop _ IH]; simpl; intros st Hst; [assumption|].
    apply IH, tenCountsSession_step; assumption. }
  apply H. split; [apply tenCounts_initial | constructor].
Qed.

(** ** Quick count *)

(** C3, as the code has it.  In a shoe without negative entries the quick
    count of a button value takes the first rank of the button's order (2, 3,
    4, 5, 6 for +1; 7, 8, 9 for 0; 10 then A for -1) whose count is positive:
    that count drops by one, the running count moves by the button value
    itself, and an entry recording the button value, the rank, the earlier
    running count and the earlier shoe is pushed.  Shoe and running count
    are those of [applyCard] on that rank exactly when the counting system
    tags the rank with the button value.  When no rank of the order has a
    positive count the state is unchanged, whatever the other ranks hold. *)
Theorem quick_count_first_available (value : Z) (st : State) :
  map_Forall (fun _ v => nonNegative v) (cardsRemaining st) ->
  (forall pre card post n,
      bucketOrder value = (pre ++ card :: post)%list ->
      Forall (fun c => js_gt (cardsRemaining st !! c) 0 = false) pre ->
      cardsRemaining st !! card = Some (Int n) ->
      0 < n ->
      applyQuickCount value st = quickCounted value card n st
      /\ forall gcs,
           cardsRemaining (applyQuickCount value st)
           = cardsRemaining (applyCard gcs card st)
           /\ (runningCount (applyQuickCount value st)
               = runningCount (applyCard gcs card st)
               <-> tagWeight (gcs (countingSystem (rules st))) card = value))
  /\ (Forall (fun c => js_gt (cardsRemaining st !! c) 0 = false) (bucketOrder value) ->
      applyQuickCount value st = st).
Proof.
  intros Hall. split.
  - intros pre card post n Horder Hpre Hcard Hpos.
    assert (Hquick : applyQuickCount value st = quickCounted value card n st).
    { unfold applyQuickCount.
      rewrite (total_guard_passes st card n Hall Hcard Hpos).
      rewrite cardToRemove_firstAvailable, Horder.
      rewrite firstAvailable_split; [|assumption|rewrite Hcard; simpl; lia].
      rewrite Hcard. reflexivity. }
    split; [exact Hquick|]. intros gcs. rewrite Hquick.
    unfold applyCard. rewrite Hcard. simpl.
    destruct (n <=? 0) eqn:Hle; [lia|]. simpl.
    split; [reflexivity|]. lia.
  - intros Hnone. unfold applyQuickCount.
    destruct (js_le _ 0); [reflexivity|].
    rewrite cardToRemove_firstAvailable.
    apply firstAvailable_none in Hnone. rewrite Hnone. reflexivity.
Qed.

Lemma twosDealt_nonNegative :
  map_Forall (fun _ v => nonNegative v) (cardsRemaining twosDealt).
Proof.
  apply map_Forall_to_list. vm_compute.
  repeat (constructor; [discriminate|]). constructor.
Defined.

Lemma quick_count_first_available_witness :
  map_Forall (fun _ v => nonNegative v) (cardsRemaining twosDealt)
  /\ applyQuickCount 1 twosDealt = quickCounted 1 "3" 4 twosDealt.
Proof.
  split; [exact twosDealt_nonNegative|].
  apply (proj1 (quick_count_first_available 1 twosDealt twosDealt_nonNegative)
           ["2"] "3" ["4"; "5"; "6"] 4).
  - reflexivity.
  - constructor; [reflexivity | constructor].
  - reflexivity.
  - lia.
Defined.

(** C3, counterexample.  With a counting system that tags the 2 with 0,
    the +1 button on a fresh deck takes a 2 and moves the running count by
    +1, not by the tag weight 0 that [applyCard] adds for a 2; the entry it
    pushes is not the one [applyCard] pushes either. *)
Lemma quick_count_ignores_tag_weight :
  let gcs := fun _ : string => hiOptI in
  let st := freshState (mkRules 1 "hi-opt-1" true false true) in
  cardToRemove 1 (cardsRemaining st) = Some "2"
  /\ tagWeight (gcs (countingSystem (rules st))) "2" = 0
  /\ runningCount (applyCard gcs "2" st) = runningCount st
  /\ runningCount (applyQuickCount 1 st) = runningCount st + 1
  /\ history (applyQuickCount 1 st) <> history (applyCard gcs "2" st).
Proof.
  repeat split; try reflexivity. vm_compute. discriminate.
Qed.

(** ** Coverage of the legacy basic strategy *)

Lemma member_In (s : string) (l : list string) : member s l = true -> In s l.
Proof.
  unfold member. rewrite existsb_exists. intros (x & Hx & Heq).
  apply String.eqb_eq in Heq. subst. assumption.
Qed.

Lemma strategyEntry_das (handType handValue : string) (dealer : option Z) (r : Rules) :
  strategyEntry handType handValue dealer r
  = strategyEntry handType handValue dealer (mkRules 0 "" false false (das r)).
Proof. reflexivity. Qed.

Lemma coveredBy_all (dasRule : bool) : coveredBy dasRule = true.
Proof. destruct dasRule; vm_compute; reflexivity. Qed.

(** C4, as the code has it.  Every selection the component offers (hard 4
    to 20, soft 2 to 9, the ten pairs, against the ten dealer cards) is
    answered from inside the branch of its hand type, the hard totals below
    9 by the closing [return 'Hit'] of the hard branch; the function's final
    [return 'Hit'] is not reached for them.  A query no branch answers is not
    an error: the function returns Hit for it. *)
Theorem basic_strategy_coverage
    (handType handValue dealerCard : string) (r : Rules) :
  (reachableQuery handType handValue dealerCard = true ->
   exists a,
     strategyEntry handType handValue (dealerValue dealerCard) r = Some a
     /\ getBasicStrategyActionLegacy handType handValue (dealerValue dealerCard) r = a)
  /\ (forall dealer,
        strategyEntry handType handValue dealer r = None ->
        getBasicStrategyActionLegacy handType handValue dealer r = Hit).
Proof.
  split.
  - intros Hreach.
    assert (Hentry : exists a,
               strategyEntry handType handValue (dealerValue dealerCard) r = Some a).
    { rewrite strategyEntry_das.
      pose proof (coveredBy_all (das r)) as Hcov.
      unfold coveredBy in Hcov. rewrite forallb_forall in Hcov.
      unfold reachableQuery in Hreach.
      apply andb_prop in Hreach as [Hdealer Hhand].
      specialize (Hcov dealerCard (member_In _ _ Hdealer)).
      apply andb_prop in Hcov as [Hcov Hpairs].
      apply andb_prop in Hcov as [Hhard Hsoft].
      rewrite forallb_forall in Hhard, Hsoft, Hpairs.
      apply orb_prop in Hhand as [Hhand | Hhand];
        [apply orb_prop in Hhand as [Hhand | Hhand]|];
        apply andb_prop in Hhand as [Htype Hvalue];
        apply String.eqb_eq in Htype; subst handType;
        apply member_In in Hvalue.
      - specialize (Hhard handValue Hvalue).
        destruct (strategyEntry "hard" handValue _ _) as [a|]; [eauto | discriminate].
      - specialize (Hsoft handValue Hvalue).
        destruct (strategyEntry "soft" handValue _ _) as [a|]; [eauto | discriminate].
      - specialize (Hpairs handValue Hvalue).
        destruct (strategyEntry "pairs" handValue _ _) as [a|]; [eauto | discriminate]. }
    destruct Hentry as [a Ha]. exists a. split; [assumption|].
    unfold getBasicStrategyActionLegacy. rewrite Ha. reflexivity.
  - intros dealer Hnone. unfold getBasicStrategyActionLegacy.
    rewrite Hnone. reflexivity.
Qed.

Lemma basic_strategy_coverage_witness :
  reachableQuery "pairs" "8" "10" = true
  /\ exists a,
       strategyEntry "pairs" "8" (dealerValue "10") (exampleRules 6) = Some a
       /\ getBasicStrategyActionLegacy "pairs" "8" (dealerValue "10") (exampleRules 6) = a.
Proof.
  split; [reflexivity|].
  apply (proj1 (basic_strategy_coverage "pairs" "8" "10" (exampleRules 6))).
  reflexivity.
Defined.

(** C4, counterexample.  A pair of 8s asked with the hand type spelled
    'pair', and a soft 10, match no branch; the function does not fail, it
    answers Hit. *)
Lemma lookup_miss_defaults_to_hit :
  strategyEntry "pair" "8" (dealerValue "10") (exampleRules 6) = None
  /\ getBasicStrategyActionLegacy "pair" "8" (dealerValue "10") (exampleRules 6) = Hit
  /\ strategyEntry "soft" "10" (dealerValue "6") (exampleRules 6) = None
  /\ getBasicStrategyActionLegacy "soft" "10" (dealerValue "6") (exampleRules 6) = Hit.
Proof. repeat split. Qed.

(** ** The legacy recommendation *)

(** Neither free identifier is bound. *)
Lemma free_identifiers_unbound :
  inScope "DEFAULT_RULES" = false
  /\ inScope "calculateEV" = false
  /\ inScope "DEFAULT_COMPREHENSIVE_RULES" = true.
Proof. repeat split. Qed.

(** [getRecommendationLegacy] selects its action and note and then reads
    [calculateEV] while it builds the argument of [setRecommendation]; the
    read throws, so the call never stores the recommendation it selected. *)
Lemma getRecommendationLegacy_throws (calculateEV : Z -> Rules -> Q) (st : State) :
  getRecommendationLegacy calculateEV st = Throw (ReferenceError "calculateEV").
Proof.
  unfold getRecommendationLegacy. destruct (legacyDecision st). reflexivity.
Qed.

Lemma dealerValue_A : dealerValue "A" = Some 11.
Proof. reflexivity. Qed.

(** The insurance return: when the dealer card is the ace, insurance is
    enabled and the rounded true count is at least 3, the object literal
    that the function builds has the action Insurance, for every hand. *)
Lemma legacyDecision_insurance (st : State) :
  dealerCard st = "A" ->
  insurance (rules st) = true ->
  3 <= getTrueCountRounded st ->
  legacyDecision st = (Insurance, InsuranceNote (getTrueCountRounded st)).
Proof.
  intros Hdealer Hins Htc. unfold legacyDecision, insuranceFires.
  rewrite Hdealer, dealerValue_A, Hins. simpl.
  destruct (3 <=? getTrueCountRounded st) eqn:Hle; [reflexivity | lia].
Qed.

(** Hard 16 against 10 with late surrender off: the object literal has
    the action Stand by index 0 from a rounded true count of 0 upwards and
    the basic-strategy Hit below. *)
Lemma legacyDecision_hard16_vs_10 (st : State) :
  handType st = "hard" ->
  handValue st = "16" ->
  dealerCard st = "10" ->
  lateSurrender (rules st) = false ->
  (0 <= getTrueCountRounded st ->
   legacyDecision st = (Stand, IndexNote 0 Stand (getTrueCountRounded st)))
  /\ (getTrueCountRounded st < 0 ->
      legacyDecision st = (Hit, BasicStrategyNote)).
Proof.
  intros Htype Hvalue Hdealer Hsurr.
  unfold legacyDecision, insuranceFires, handTiers, surrenderTier, deviationTier.
  rewrite Htype, Hvalue, Hdealer, Hsurr.
  generalize (getTrueCountRounded st) as tc. intros tc.
  change (dealerValue "10") with (Some 10).
  change ("hard" ++ "-" ++ "16") with "hard-16".
  cbn [num_eq Z.eqb Pos.eqb andb String.eqb Ascii.eqb Bool.eqb orb].
  split; intros Htc.
  - destruct (0 <=? tc) eqn:Hle; [reflexivity | lia].
  - destruct (0 <=? tc) eqn:Hle; [lia | reflexivity].
Qed.

(** ** Rounding of the true count *)

Lemma Math_round_bounds (x : Q) :
  (inject_Z (Math_round x) - (1 # 2) <= x)%Q
  /\ (x < inject_Z (Math_round x) + (1 # 2))%Q.
Proof.
  unfold Math_round.
  pose proof (Qfloor_le (x + (1 # 2))) as Hlo.
  pose proof (Qlt_floor (x + (1 # 2))) as Hhi.
  rewrite inject_Z_plus in Hhi.
  change (inject_Z 1) with 1%Q in Hhi.
  split; lra.
Qed.

Lemma Math_round_unique (x : Q) (n : Z) :
  (inject_Z n - (1 # 2) <= x)%Q ->
  (x < inject_Z n + (1 # 2))%Q ->
  Math_round x = n.
Proof.
  intros Hlo Hhi. unfold Math_round.
  pose proof (Qfloor_le (x + (1 # 2))) as Hfloor.
  pose proof (Qlt_floor (x + (1 # 2))) as Hceil.
  assert (H1 : (inject_Z (Qfloor (x + (1 # 2))) < inject_Z (n + 1))%Q).
  { rewrite inject_Z_plus. change (inject_Z 1) with 1%Q. lra. }
  assert (H2 : (inject_Z n < inject_Z (Qfloor (x + (1 # 2)) + 1))%Q) by lra.
  rewrite <- Zlt_Qlt in H1, H2. lia.
Qed.

Lemma Math_round_iff (x : Q) (n : Z) :
  Math_round x = n
  <-> (inject_Z n - (1 # 2) <= x)%Q /\ (x < inject_Z n + (1 # 2))%Q.
Proof.
  split.
  - intros <-. apply Math_round_bounds.
  - intros [Hlo Hhi]. apply Math_round_unique; assumption.
Qed.

(** C7, as the code has it.  The true count is the double that the two
    divisions of [getTrueCount] produce (on a render, the number that
    [calculateTrueCount] returns).  For every value [x] of it, the rounded
    true count is [n] exactly when [n - 1/2 <= x < n + 1/2]: the nearest
    integer, and the larger of the two when [x] lies half-way.  This holds
    of the rounded true count of every state, which the deviation lookups
    read, and of the rounded value of every render; the count-adjusted EV
    and the bet units of a render are computed from the unrounded value. *)
Theorem rounding_nearest_ties_upward :
  (forall (st : State) (n : Z),
      getTrueCountRounded st = n
      <-> (inject_Z n - (1 # 2) <= getTrueCount st)%Q
          /\ (getTrueCount st < inject_Z n + (1 # 2))%Q)
  /\ (forall calculateTrueCount calculateBaseHouseEdge calculateCountAdjustedEV
             recommendBetUnits (st : State) (n : Z),
        let x := calculateTrueCount (runningCount st) (getRemainingDecks st)
                                    (countingSystem (rules st)) in
        let v := render calculateTrueCount calculateBaseHouseEdge
                        calculateCountAdjustedEV recommendBetUnits st in
        (tcRounded v = n
         <-> (inject_Z n - (1 # 2) <= x)%Q /\ (x < inject_Z n + (1 # 2))%Q)
        /\ countAdjustedEV v
           = calculateCountAdjustedEV (calculateBaseHouseEdge (rules st)) x (rules st)
        /\ betUnits v = recommendBetUnits x (rules st)).
Proof.
  split.
  - intros st n. unfold getTrueCountRounded. apply Math_round_iff.
  - intros cTC cBHE cAEV rBU st n x v. subst x v. simpl.
    split; [apply Math_round_iff|]. split; reflexivity.
Qed.

(** C7, counterexample.  A true count of exactly -1/2 is rounded to 0, not
    away from zero to -1; +1/2 is rounded to 1. *)
Lemma half_below_zero_rounds_to_zero :
  runningCount halfBelowZero = -1
  /\ getTotalCardsRemaining halfBelowZero = Int 104
  /\ (getTrueCount halfBelowZero == - (1 # 2))%Q
  /\ getTrueCountRounded halfBelowZero = 0
  /\ Math_round (- (1 # 2)) = 0
  /\ Math_round (1 # 2) = 1.
Proof. repeat split. Qed.

(** ** Ranks outside the shoe *)

(** C8, as the code has it.  For a rank that is none of 2 to 9, 10 and A,
    [applyCard] and [removeCard] report nothing (they return the next state
    and have no other outcome) and leave the remaining count of each of the
    ten ranks as it was, whether the counting system has a tag for the rank
    or not.  The running count moves by at most the tag weight that the
    tags table yields for the rank: it stays as it was when the table
    yields nothing (no tag of its own, and not a name that every object
    inherits, such as 'constructor'), and with a tag of weight [w] a deal
    leaves it or adds [w] and a correction leaves it or takes [w] off. *)
Theorem invalid_rank_not_reported
    (gcs : string -> CountingSystem) (card : string) (st : State) :
  ~ In card ranks ->
  (forall r, In r ranks ->
     cardsRemaining (applyCard gcs card st) !! r = cardsRemaining st !! r
     /\ cardsRemaining (removeCard gcs card st) !! r = cardsRemaining st !! r)
  /\ (~ In card objectPrototypeNames ->
      (tags (gcs (countingSystem (rules st))) !! card = None ->
       runningCount (applyCard gcs card st) = runningCount st
       /\ runningCount (removeCard gcs card st) = runningCount st)
      /\ (forall w, tags (gcs (countingSystem (rules st))) !! card = Some w ->
           (runningCount (applyCard gcs card st) = runningCount st
            \/ runningCount (applyCard gcs card st) = runningCount st + w)
           /\ (runningCount (removeCard gcs card st) = runningCount st
               \/ runningCount (removeCard gcs card st) = runningCount st - w))).
Proof.
  intros Hcard. split.
  - intros r Hr. assert (card <> r) by (intros ->; contradiction).
    unfold applyCard, removeCard.
    destruct (js_le (cardsRemaining st !! card) 0),
             (js_ge (cardsRemaining st !! card) (capacity (rules st) card));
      simpl; rewrite ?lookup_insert_ne by assumption; split; reflexivity.
  - intros _. split.
    + intros Htag.
      assert (Hweight : tagWeight (gcs (countingSystem (rules st))) card = 0).
      { unfold tagWeight. rewrite Htag. reflexivity. }
      unfold applyCard, removeCard.
      destruct (js_le (cardsRemaining st !! card) 0),
               (js_ge (cardsRemaining st !! card) (capacity (rules st) card));
        simpl; rewrite ?Hweight; split; lia.
    + intros w Htag.
      assert (Hweight : tagWeight (gcs (countingSystem (rules st))) card = w).
      { unfold tagWeight. rewrite Htag. reflexivity. }
      unfold applyCard, removeCard.
      destruct (js_le (cardsRemaining st !! card) 0),
               (js_ge (cardsRemaining st !! card) (capacity (rules st) card));
        simpl; rewrite ?Hweight; split; auto.
Qed.

Lemma invalid_rank_not_reported_witness :
  let gcs := fun _ : string => hiLo in
  let st := freshState (exampleRules 1) in
  ~ In "J" ranks
  /\ ~ In "J" objectPrototypeNames
  /\ tags (gcs (countingSystem (rules st))) !! "J" = None
  /\ cardsRemaining (applyCard gcs "J" st) !! "10" = cardsRemaining st !! "10"
  /\ runningCount (applyCard gcs "J" st) = runningCount st
  /\ runningCount (removeCard gcs "J" st) = runningCount st.
Proof.
  assert (Hout : ~ In "J" ranks).
  { simpl. intros H. repeat (destruct H as [H | H]; [discriminate|]). exact H. }
  assert (Hown : ~ In "J" objectPrototypeNames).
  { simpl. intros H. repeat (destruct H as [H | H]; [discriminate|]). exact H. }
  split; [exact Hout|]. split; [exact Hown|]. split; [reflexivity|].
  destruct (invalid_rank_not_reported (fun _ => hiLo) "J"
              (freshState (exampleRules 1)) Hout) as (Hshoe & Hcount).
  split.
  - apply (Hshoe "10"). simpl. tauto.
  - apply (proj1 (Hcount Hown)). reflexivity.
Defined.

(** C8, counterexample.  Applying or removing the rank 'J' on a fresh deck
    goes through: the shoe gains the key 'J' holding NaN, [applyCard]
    pushes a history entry for it, and the total of the shoe becomes NaN. *)
Lemma invalid_rank_enters_shoe :
  let gcs := fun _ : string => hiLo in
  let st := freshState (exampleRules 1) in
  cardsRemaining st !! "J" = None
  /\ cardsRemaining (applyCard gcs "J" st) !! "J" = Some NaN
  /\ history (applyCard gcs "J" st) = [CardEntry "J" 0 0 (cardsRemaining st)]
  /\ getTotalCardsRemaining (applyCard gcs "J" st) = NaN
  /\ cardsRemaining (removeCard gcs "J" st) !! "J" = Some NaN.
Proof. repeat split. Qed.

(** ** Quick start *)

(** C9.  [quickStartStandard] throws a ReferenceError for [DEFAULT_RULES]
    on every call, whatever the state: the name is bound neither by an
    import nor by a declaration (the import is
    [DEFAULT_COMPREHENSIVE_RULES]), and it is read before [setRules] and
    [resetShoe] run, so no cell changes. *)
Theorem quick_start_reference_error (DEFAULT_RULES : Rules) (st : State) :
  quickStartStandard DEFAULT_RULES st = Throw (ReferenceError "DEFAULT_RULES")
  /\ cellsAfter st (quickStartStandard DEFAULT_RULES st) = st
  /\ inScope "DEFAULT_RULES" = false
  /\ inScope "DEFAULT_COMPREHENSIVE_RULES" = true.
Proof. repeat split. Qed.

(** ** Category counts *)

Lemma countCards_sumOver (m : gmap string jsnum) (keys : list string) :
  countCards m keys = sumOver m keys.
Proof.
  unfold countCards, sumOver.
  assert (H : forall a, fold_left (fun sum card => sum + js_or0 (m !! card)) keys a
                        = a + foldr (fun k acc => js_or0 (m !! k) + acc) 0 keys).
  { induction keys as [|k keys IH]; simpl; intros a; [lia|]. rewrite IH. lia. }
  rewrite H. lia.
Qed.

Lemma sumOver_delete (m : gmap string jsnum) (k : string) (keys : list string) :
  ~ In k keys -> sumOver (delete k m) keys = sumOver m keys.
Proof.
  induction keys as [|k' keys IH]; simpl; intros Hk; [reflexivity|].
  rewrite lookup_delete_ne by (intros ->; apply Hk; left; reflexivity).
  rewrite IH; [reflexivity|]. intros H. apply Hk. right. exact H.
Qed.

(** A shoe whose keys are exactly [keys], each holding an integer, totals
    the sum of its counts. *)
Lemma sumValues_keys (keys : list string) :
  NoDup keys ->
  forall m : gmap string jsnum,
    dom m = list_to_set keys ->
    map_Forall (fun _ v => v <> NaN) m ->
    sumValues m = Int (sumOver m keys).
Proof.
  induction 1 as [|k keys Hk Hnodup IH]; intros m Hdom Hint.
  - simpl in Hdom. apply dom_empty_iff_L in Hdom. subst m.
    apply sumValues_empty.
  - assert (Hin : k ∈ dom m) by (rewrite Hdom; apply elem_of_list_to_set; left).
    apply elem_of_dom in Hin as [v Hv].
    assert (Hn : exists n, v = Int n).
    { destruct v as [n|]; [eauto|]. exfalso. apply (Hint k NaN Hv). reflexivity. }
    destruct Hn as [n ->].
    rewrite (sumValues_delete m k (Int n) Hv).
    rewrite (IH (delete k m)).
    + rewrite sumOver_delete by (rewrite <- list_elem_of_In; exact Hk).
      simpl. rewrite Hv. simpl. f_equal. lia.
    + assert (Hfresh : k ∉ (list_to_set keys : gset string))
        by (rewrite elem_of_list_to_set; exact Hk).
      rewrite dom_delete_L, Hdom. simpl.
      apply set_eq. intros x.
      rewrite elem_of_difference, elem_of_union, elem_of_singleton.
      split; [tauto|]. intros Hx. split; [tauto|]. intros ->. contradiction.
    + intros k' v' Hk'. apply lookup_delete_Some in Hk' as [_ Hk'].
      apply (Hint k' v' Hk').
Qed.

Lemma ranks_NoDup : NoDup ranks.
Proof.
  unfold ranks.
  repeat (constructor; [rewrite ?elem_of_cons, elem_of_nil; intros H;
                        repeat (destruct H as [H | H]; [discriminate|]); exact H|]).
  constructor.
Qed.

(** C10.  For a shoe whose keys are exactly the ten ranks, each holding an
    integer, the counts of the three categories (2 to 6, 7 to 9, 10 and A)
    add up to the total of the remaining cards; and whenever that total is 0
    each of the three percentage fields is the string '0.0'. *)
Theorem category_counts_sum_to_total (toFixed : Q -> nat -> string) (st : State) :
  dom (cardsRemaining st) = list_to_set ranks ->
  map_Forall (fun _ v => v <> NaN) (cardsRemaining st) ->
  let c := getCardsRemainingByCategory toFixed st in
  getTotalCardsRemaining st = Int (plusOne c + neutral c + minusOne c)
  /\ (getTotalCardsRemaining st = Int 0 ->
      plusOnePercent c = "0.0" /\ neutralPercent c = "0.0"
      /\ minusOnePercent c = "0.0").
Proof.
  intros Hdom Hint c. split.
  - unfold getTotalCardsRemaining.
    rewrite (sumValues_keys ranks ranks_NoDup _ Hdom Hint).
    subst c. unfold getCardsRemainingByCategory. simpl.
    rewrite !countCards_sumOver. unfold sumOver, ranks. simpl.
    f_equal. lia.
  - intros Hzero. subst c. unfold getCardsRemainingByCategory. simpl.
    rewrite Hzero. simpl. auto.
Qed.

Lemma category_counts_sum_to_total_witness :
  let st := freshState (exampleRules 1) in
  let c := getCardsRemainingByCategory (fun _ _ => "") st in
  dom (cardsRemaining st) = list_to_set ranks
  /\ map_Forall (fun _ v => v <> NaN) (cardsRemaining st)
  /\ getTotalCardsRemaining st = Int (plusOne c + neutral c + minusOne c).
Proof.
  assert (Hdom : dom (cardsRemaining (freshState (exampleRules 1)))
                 = list_to_set ranks).
  { apply set_eq. intros k. rewrite elem_of_dom, elem_of_list_to_set.
    unfold ranks. rewrite !elem_of_cons, elem_of_nil. split.
    - intros [v Hv].
      destruct (decide (k = "2")); [tauto|]. destruct (decide (k = "3")); [tauto|].
      destruct (decide (k = "4")); [tauto|]. destruct (decide (k = "5")); [tauto|].
      destruct (decide (k = "6")); [tauto|]. destruct (decide (k = "7")); [tauto|].
      destruct (decide (k = "8")); [tauto|]. destruct (decide (k = "9")); [tauto|].
      destruct (decide (k = "10")); [tauto|]. destruct (decide (k = "A")); [tauto|].
      exfalso. revert Hv. simpl. unfold initialCards. simpl.
      rewrite !lookup_insert_ne by congruence. rewrite lookup_empty. discriminate.
    - intros H. repeat (destruct H as [-> | H]; [eexists; reflexivity|]). destruct H. }
  assert (Hint : map_Forall (fun _ v => v <> NaN)
                   (cardsRemaining (freshState (exampleRules 1)))).
  { apply map_Forall_to_list. vm_compute.
    repeat (constructor; [discriminate|]). constructor. }
  split; [exact Hdom|]. split; [exact Hint|].
  apply (category_counts_sum_to_total (fun _ _ => "")
           (freshState (exampleRules 1)) Hdom Hint).
Defined.

(** * Further properties *)

(** ** Totals *)

Lemma sumValues_replace (m : gmap string jsnum) (k : string) (n n' t : Z) :
  m !! k = Some (Int n) ->
  sumValues m = Int t ->
  sumValues (<[k := Int n']> m) = Int (t - n + n').
Proof.
  intros Hk Ht.
  rewrite (sumValues_delete m k (Int n) Hk) in Ht.
  rewrite <- insert_delete_eq.
  rewrite sumValues_insert by apply lookup_delete_eq.
  destruct (sumValues (delete k m)) as [d|]; [|discriminate].
  simpl in Ht |- *. injection Ht as <-. f_equal. lia.
Qed.

Lemma sumValues_NaN (m : gmap string jsnum) : hasNaN m -> sumValues m = NaN.
Proof.
  intros [k Hk]. rewrite (sumValues_delete m k NaN Hk).
  destruct (sumValues (delete k m)); reflexivity.
Qed.

Lemma initialCards_total (r : Rules) :
  sumValues (initialCards r) = Int (52 * numDecks r).
Proof.
  destruct (tenCounts_initial r) as [Hdom Hint].
  rewrite (sumValues_keys ranks ranks_NoDup _ Hdom Hint).
  unfold sumOver, ranks. simpl.
  rewrite !initialCards_lookup by (unfold ranks; simpl; tauto).
  unfold capacity. simpl. f_equal. lia.
Qed.

(** X1.  After [resetShoe] the shoe holds 52 cards per deck, the running
    count and the true count are 0, the history is empty and the
    recommendation is cleared, whatever the state before. *)
Theorem reset_gives_full_shoe (st : State) :
  getTotalCardsRemaining (resetShoe st) = Int (52 * numDecks (rules st))
  /\ runningCount (resetShoe st) = 0
  /\ (getTrueCount (resetShoe st) == 0)%Q
  /\ history (resetShoe st) = []
  /\ recommendation (resetShoe st) = None
  /\ undo (resetShoe st) = resetShoe st.
Proof.
  assert (Htotal : getTotalCardsRemaining (resetShoe st)
                   = Int (52 * numDecks (rules st))).
  { unfold getTotalCardsRemaining, resetShoe. simpl. apply initialCards_total. }
  split; [exact Htotal|]. split; [reflexivity|]. split.
  - unfold getTrueCount, getRemainingDecks. rewrite Htotal.
    destruct (Qle_bool _ 0); [reflexivity|].
    unfold resetShoe. simpl. rewrite toDouble_zero; [reflexivity|].
    unfold Qdiv. change (inject_Z 0) with 0%Q. ring.
  - repeat split.
Qed.

(** X2.  A deal that goes through removes exactly one card: when the rank
    holds a positive integer count and the total of the shoe is an integer,
    [applyCard] lowers the total by one, moves the running count by the tag
    weight of the rank and lengthens the history by one entry. *)
Theorem apply_removes_one_card
    (gcs : string -> CountingSystem) (card : string) (st : State) (n t : Z) :
  cardsRemaining st !! card = Some (Int n) ->
  0 < n ->
  getTotalCardsRemaining st = Int t ->
  getTotalCardsRemaining (applyCard gcs card st) = Int (t - 1)
  /\ cardsRemaining (applyCard gcs card st) !! card = Some (Int (n - 1))
  /\ runningCount (applyCard gcs card st)
     = runningCount st + tagWeight (gcs (countingSystem (rules st))) card
  /\ length (history (applyCard gcs card st)) = S (length (history st)).
Proof.
  intros Hcard Hpos Htotal. unfold getTotalCardsRemaining in *.
  unfold applyCard. rewrite Hcard. simpl.
  destruct (n <=? 0) eqn:Hle; [lia|]. simpl.
  split.
  - rewrite (sumValues_replace _ card n (n - 1) t Hcard Htotal). f_equal. lia.
  - split; [apply lookup_insert_eq|]. split; [reflexivity|].
    rewrite length_app. simpl. lia.
Qed.

Lemma apply_removes_one_card_witness :
  let st := freshState (exampleRules 6) in
  cardsRemaining st !! "5" = Some (Int 24)
  /\ 0 < 24
  /\ getTotalCardsRemaining st = Int 312
  /\ getTotalCardsRemaining (applyCard (fun _ => hiLo) "5" st) = Int (312 - 1).
Proof.
  split; [reflexivity|]. split; [lia|]. split; [reflexivity|].
  apply (apply_removes_one_card (fun _ => hiLo) "5" (freshState (exampleRules 6))
           24 312); [reflexivity | lia | reflexivity].
Defined.

(** X3.  A correction that goes through puts exactly one card back: when
    the rank holds an integer count below its capacity and the total is an
    integer, [removeCard] raises the total by one and takes the tag weight
    off the running count; the history is not touched, so the correction
    cannot be undone. *)
Theorem remove_returns_one_card
    (gcs : string -> CountingSystem) (card : string) (st : State) (n t : Z) :
  cardsRemaining st !! card = Some (Int n) ->
  n < (if String.eqb card "10"
       then numDecks (rules st) * 16 else numDecks (rules st) * 4) ->
  getTotalCardsRemaining st = Int t ->
  getTotalCardsRemaining (removeCard gcs card st) = Int (t + 1)
  /\ cardsRemaining (removeCard gcs card st) !! card = Some (Int (n + 1))
  /\ runningCount (removeCard gcs card st)
     = runningCount st - tagWeight (gcs (countingSystem (rules st))) card
  /\ history (removeCard gcs card st) = history st.
Proof.
  intros Hcard Hcap Htotal. unfold getTotalCardsRemaining in *.
  assert (Hge : js_ge (Some (Int n)) (capacity (rules st) card) = false).
  { revert Hcap. unfold capacity. simpl.
    destruct (String.eqb card "10"); intros Hcap; lia. }
  unfold removeCard. rewrite Hcard, Hge. simpl.
  split.
  - rewrite (sumValues_replace _ card n (n + 1) t Hcard Htotal). f_equal. lia.
  - split; [apply lookup_insert_eq|]. split; reflexivity.
Qed.

Lemma remove_returns_one_card_witness :
  let st := applyCard (fun _ => hiLo) "10" (freshState (exampleRules 1)) in
  cardsRemaining st !! "10" = Some (Int 15)
  /\ 15 < numDecks (rules st) * 16
  /\ getTotalCardsRemaining st = Int 51
  /\ getTotalCardsRemaining (removeCard (fun _ => hiLo) "10" st) = Int (51 + 1).
Proof.
  split; [reflexivity|]. split; [vm_compute; reflexivity|]. split; [reflexivity|].
  apply (remove_returns_one_card (fun _ => hiLo) "10"
           (applyCard (fun _ => hiLo) "10" (freshState (exampleRules 1))) 15 51);
    [reflexivity | vm_compute; reflexivity | reflexivity].
Defined.

(** X4.  [applyQuickCount] either leaves every cell as it was or removes
    exactly one card: the total drops by one, the running count moves by the
    button value and the history grows by one entry. *)
Theorem quick_count_removes_at_most_one (value : Z) (st : State) (t : Z) :
  map_Forall (fun _ v => nonNegative v) (cardsRemaining st) ->
  getTotalCardsRemaining st = Int t ->
  applyQuickCount value st = st
  \/ (getTotalCardsRemaining (applyQuickCount value st) = Int (t - 1)
      /\ runningCount (applyQuickCount value st) = runningCount st + value
      /\ length (history (applyQuickCount value st)) = S (length (history st))).
Proof.
  intros Hall Htotal. unfold applyQuickCount.
  destruct (js_le _ 0); [left; reflexivity|].
  destruct (cardToRemove value (cardsRemaining st)) as [card|] eqn:Hpick;
    [|left; reflexivity].
  right. destruct (cardToRemove_available _ _ _ Hpick) as (n & Hn & Hpos).
  unfold getTotalCardsRemaining in *. simpl. rewrite Hn. simpl.
  split.
  - rewrite (sumValues_replace _ card n (n - 1) t Hn Htotal). f_equal. lia.
  - split; [reflexivity|]. rewrite length_app. simpl. lia.
Qed.

Lemma quick_count_removes_at_most_one_witness :
  map_Forall (fun _ v => nonNegative v) (cardsRemaining twosDealt)
  /\ getTotalCardsRemaining twosDealt = Int 48
  /\ (applyQuickCount 1 twosDealt = twosDealt
      \/ (getTotalCardsRemaining (applyQuickCount 1 twosDealt) = Int (48 - 1)
          /\ runningCount (applyQuickCount 1 twosDealt) = runningCount twosDealt + 1
          /\ length (history (applyQuickCount 1 twosDealt))
             = S (length (history twosDealt)))).
Proof.
  split; [exact twosDealt_nonNegative|]. split; [reflexivity|].
  apply (quick_count_removes_at_most_one 1 twosDealt 48 twosDealt_nonNegative).
  reflexivity.
Defined.

(** ** Deals, corrections and undo *)

(** X5.  A correction straight after a deal restores the shoe and the
    running count, but the history keeps the entry of the deal; a following
    [undo] then gives back the state before the deal. *)
Theorem remove_after_apply
    (gcs : string -> CountingSystem) (card : string) (st : State) (n : Z) :
  cardsRemaining st !! card = Some (Int n) ->
  0 < n ->
  n <= (if String.eqb card "10"
        then numDecks (rules st) * 16 else numDecks (rules st) * 4) ->
  let st' := removeCard gcs card (applyCard gcs card st) in
  cardsRemaining st' = cardsRemaining st
  /\ runningCount st' = runningCount st
  /\ history st'
     = (history st
        ++ [CardEntry card (tagWeight (gcs (countingSystem (rules st))) card)
                      (runningCount st) (cardsRemaining st)])%list
  /\ undo st' = st.
Proof.
  intros Hcard Hpos Hcap.
  assert (Hge : js_ge (Some (Int (n - 1))) (capacity (rules st) card) = false).
  { revert Hcap. unfold capacity. simpl.
    destruct (String.eqb card "10"); intros Hcap; lia. }
  unfold applyCard. rewrite Hcard. simpl.
  destruct (n <=? 0) eqn:Hle; [lia|].
  unfold removeCard. simpl. rewrite lookup_insert_eq, Hge. simpl.
  rewrite insert_insert_eq.
  replace (n - 1 + 1) with n by lia.
  rewrite (insert_id _ _ _ Hcard).
  split; [reflexivity|]. split; [lia|]. split; [reflexivity|].
  unfold undo. simpl. rewrite last_snoc, removelast_last. simpl.
  apply state_eta.
Qed.

Lemma remove_after_apply_witness :
  let st := freshState (exampleRules 6) in
  cardsRemaining st !! "A" = Some (Int 24)
  /\ 0 < 24
  /\ 24 <= numDecks (rules st) * 4
  /\ undo (removeCard (fun _ => hiLo) "A" (applyCard (fun _ => hiLo) "A" st)) = st.
Proof.
  split; [reflexivity|]. split; [lia|]. split; [vm_compute; discriminate|].
  apply (remove_after_apply (fun _ => hiLo) "A" (freshState (exampleRules 6)) 24);
    [reflexivity | lia | vm_compute; discriminate].
Defined.

(** X6.  [undo] does not know about corrections: with a history that is
    not empty, undoing after a [removeCard] gives the same state as undoing
    without it, so the correction is lost. *)
Theorem undo_discards_correction
    (gcs : string -> CountingSystem) (card : string) (st : State) :
  history st <> [] ->
  undo (removeCard gcs card st) = undo st.
Proof.
  intros Hhist. unfold removeCard.
  destruct (js_ge _ _); [reflexivity|].
  unfold undo. simpl.
  destruct (last (history st)) as [e|] eqn:Hlast; [reflexivity|].
  apply last_None in Hlast. contradiction.
Qed.

Lemma undo_discards_correction_witness :
  let gcs := fun _ : string => hiLo in
  let st := run gcs (freshState (exampleRules 1)) [OpApply "10"; OpApply "5"] in
  history st <> []
  /\ removeCard gcs "10" st <> st
  /\ undo (removeCard gcs "10" st) = undo st.
Proof.
  split; [discriminate|].
  split; [intros H; apply (f_equal runningCount) in H; vm_compute in H; discriminate|].
  apply (undo_discards_correction (fun _ => hiLo) "10"); discriminate.
Defined.

Lemma deal_step (gcs : string -> CountingSystem) (op : Op) (st : State) :
  dealOp op ->
  step gcs st op = st
  \/ (undo (step gcs st op) = st
      /\ length (history (step gcs st op)) = S (length (history st))).
Proof.
  destruct op as [card | card | value | |]; simpl; try contradiction; intros _.
  - unfold applyCard. destruct (js_le _ 0); [left; reflexivity|]. right.
    unfold undo. simpl. rewrite last_snoc, removelast_last, length_app. simpl.
    split; [apply state_eta | lia].
  - unfold applyQuickCount. destruct (js_le _ 0); [left; reflexivity|].
    destruct (cardToRemove value (cardsRemaining st)); [|left; reflexivity]. right.
    unfold undo. simpl. rewrite last_snoc, removelast_last, length_app. simpl.
    split; [apply state_eta | lia].
Qed.

Lemma deal_run_length (gcs : string -> CountingSystem) (ops : list Op) (st : State) :
  Forall dealOp ops ->
  (length (history st) <= length (history (run gcs st ops)))%nat.
Proof.
  intros Hops. revert st. unfold run.
  induction Hops as [|op ops Hop _ IH]; simpl; intros st; [lia|].
  specialize (IH (step gcs st op)).
  destruct (deal_step gcs op st Hop) as [Heq | [_ Hlen]].
  - rewrite Heq in IH |- *. exact IH.
  - lia.
Qed.

(** X7.  After any sequence of deals (cards applied and quick counts),
    pressing undo once for every entry the sequence added to the history
    gives back exactly the state the sequence started from. *)
Theorem undo_all_deals
    (gcs : string -> CountingSystem) (ops : list Op) (st : State) :
  Forall dealOp ops ->
  undoTimes (length (history (run gcs st ops)) - length (history st))
            (run gcs st ops) = st.
Proof.
  intros Hops. revert st.
  induction Hops as [|op ops Hop Hops IH]; intros st.
  - unfold run. simpl. rewrite Nat.sub_diag. reflexivity.
  - change (run gcs st (op :: ops)) with (run gcs (step gcs st op) ops).
    specialize (IH (step gcs st op)).
    pose proof (deal_run_length gcs ops (step gcs st op) Hops) as Hmono.
    destruct (deal_step gcs op st Hop) as [Heq | [Hundo Hlen]].
    + rewrite Heq in IH |- *. exact IH.
    + replace (length (history (run gcs (step gcs st op) ops)) - length (history st))%nat
        with (S (length (history (run gcs (step gcs st op) ops))
                 - length (history (step gcs st op))))%nat by lia.
      unfold undoTimes in *. simpl. rewrite IH. exact Hundo.
Qed.

Lemma undo_all_deals_witness :
  let gcs := fun _ : string => hiLo in
  let ops := [OpApply "5"; OpQuickApply (-1); OpApply "2"; OpQuickApply 0] in
  Forall dealOp ops
  /\ undoTimes 3 (run gcs twosDealt ops) = twosDealt.
Proof.
  assert (Hops : Forall dealOp
                   [OpApply "5"; OpQuickApply (-1); OpApply "2"; OpQuickApply 0]).
  { repeat constructor. }
  split; [exact Hops|].
  exact (undo_all_deals (fun _ => hiLo) _ twosDealt Hops).
Defined.

Lemma sumDeltas_app (h : list HistoryEntry) (e : HistoryEntry) :
  sumDeltas (h ++ [e]) = sumDeltas h + entry_delta e.
Proof. induction h as [|x h IH]; simpl; [lia|]. rewrite IH. lia. Qed.

Lemma countChained_push (st : State) (e : HistoryEntry) (st' : State) :
  countChained st ->
  entry_rc e = runningCount st ->
  history st' = (history st ++ [e])%list ->
  runningCount st' = runningCount st + entry_delta e ->
  countChained st'.
Proof.
  intros [Hrc Hpre] He Hhist Hrc'. split.
  - rewrite Hrc', Hhist, sumDeltas_app, Hrc. reflexivity.
  - intros pre e' post Hsplit. rewrite Hhist in Hsplit.
    destruct post as [|x post _] using rev_ind.
    + apply app_inj_tail in Hsplit as [<- <-]. congruence.
    + rewrite app_comm_cons, app_assoc in Hsplit.
      apply app_inj_tail in Hsplit as [Hsplit _].
      apply (Hpre pre e' post). exact Hsplit.
Qed.

Lemma countChained_step (gcs : string -> CountingSystem) (op : Op) (st : State) :
  noRemoveOp op -> countChained st -> countChained (step gcs st op).
Proof.
  destruct op as [card | card | value | |]; simpl; try contradiction;
    intros _ Hst.
  - unfold applyCard. destruct (js_le _ 0); [assumption|].
    eapply countChained_push; [exact Hst | | reflexivity | reflexivity].
    reflexivity.
  - unfold applyQuickCount. destruct (js_le _ 0); [assumption|].
    destruct (cardToRemove value (cardsRemaining st)); [|assumption].
    eapply countChained_push; [exact Hst | | reflexivity | reflexivity].
    reflexivity.
  - unfold undo. destruct (last (history st)) as [e|] eqn:Hlast; [|assumption].
    apply last_Some in Hlast as [pre Hpre].
    destruct Hst as [Hrc Hchain]. split; simpl.
    + rewrite Hpre, removelast_last. apply (Hchain pre e []). exact Hpre.
    + rewrite Hpre, removelast_last. intros p e' q Hsplit.
      apply (Hchain p e' (q ++ [e])%list).
      rewrite Hpre, Hsplit, <- app_assoc. reflexivity.
  - split; [reflexivity|]. simpl. intros pre e post H.
    destruct pre; discriminate.
Qed.

(** X8.  In a session of deals, quick counts, undos and resets (no manual
    correction), the running count is always the sum of what the entries
    of the history record as added: the tag weight of each dealt card and
    the button value of each quick count. *)
Theorem running_count_is_history_sum
    (gcs : string -> CountingSystem) (st0 : State) (ops : list Op) :
  Forall noRemoveOp ops ->
  runningCount (run gcs (resetShoe st0) ops)
  = sumDeltas (history (run gcs (resetShoe st0) ops)).
Proof.
  intros Hops.
  assert (H : forall st, countChained st -> countChained (run gcs st ops)).
  { unfold run. induction Hops as [|op ops Hop _ IH]; simpl; intros st Hst;
      [assumption|].
    apply IH, countChained_step; assumption. }
  apply H. split; [reflexivity|]. simpl. intros pre e post Hsplit.
  destruct pre; discriminate.
Qed.

Lemma running_count_is_history_sum_witness :
  let gcs := fun _ : string => hiLo in
  let ops := [OpApply "5"; OpQuickApply (-1); OpUndo; OpApply "10"; OpApply "6"] in
  Forall noRemoveOp ops
  /\ runningCount (run gcs (resetShoe (freshState (exampleRules 2))) ops)
     = sumDeltas (history (run gcs (resetShoe (freshState (exampleRules 2))) ops)).
Proof.
  assert (Hops : Forall noRemoveOp
            [OpApply "5"; OpQuickApply (-1); OpUndo; OpApply "10"; OpApply "6"]).
  { repeat constructor. }
  split; [exact Hops|].
  exact (running_count_is_history_sum (fun _ => hiLo) _ _ Hops).
Defined.

(** X9.  [applyCard] leaves the state as it was exactly when the rank
    holds an integer count of 0 or less; for every other content of the key,
    a missing key and NaN included, it pushes a history entry.  [undo]
    leaves the state as it was exactly when the history is empty. *)
Theorem apply_and_undo_noops
    (gcs : string -> CountingSystem) (card : string) (st : State) :
  (applyCard gcs card st = st
   <-> exists n, cardsRemaining st !! card = Some (Int n) /\ n <= 0)
  /\ (undo st = st <-> history st = []).
Proof.
  split; split.
  - intros Heq. unfold applyCard in Heq.
    destruct (cardsRemaining st !! card) as [[n|]|] eqn:Hcard; simpl in Heq.
    + destruct (n <=? 0) eqn:Hle; [exists n; split; [reflexivity | lia]|].
      apply (f_equal (fun s => length (history s))) in Heq. simpl in Heq.
      rewrite length_app in Heq. simpl in Heq. lia.
    + apply (f_equal (fun s => length (history s))) in Heq. simpl in Heq.
      rewrite length_app in Heq. simpl in Heq. lia.
    + apply (f_equal (fun s => length (history s))) in Heq. simpl in Heq.
      rewrite length_app in Heq. simpl in Heq. lia.
  - intros (n & Hcard & Hle). unfold applyCard. rewrite Hcard. simpl.
    destruct (n <=? 0) eqn:E; [reflexivity | lia].
  - intros Heq. unfold undo in Heq.
    destruct (last (history st)) as [e|] eqn:Hlast; [|apply last_None; assumption].
    apply last_Some in Hlast as [pre Hpre].
    apply (f_equal (fun s => length (history s))) in Heq. simpl in Heq.
    rewrite Hpre, removelast_last, length_app in Heq. simpl in Heq. lia.
  - intros Hhist. unfold undo. rewrite Hhist. reflexivity.
Qed.

(** ** NaN in the shoe *)

Lemma NaN_zeroes_true_count (st : State) :
  hasNaN (cardsRemaining st) ->
  getTotalCardsRemaining st = NaN
  /\ getRemainingDecks st = None
  /\ getTrueCount st = 0%Q
  /\ getTrueCountRounded st = 0.
Proof.
  intros Hnan.
  assert (Htotal : getTotalCardsRemaining st = NaN)
    by (apply sumValues_NaN; assumption).
  unfold getTrueCountRounded, getTrueCount, getRemainingDecks.
  rewrite Htotal. repeat split.
Qed.

(** X10.  Applying or removing a rank for which the shoe holds nothing
    (no key of the shoe, and no name that every object inherits, such as
    'constructor', for which the read yields a function) turns the total
    into NaN: from then on there are no decks to divide by, the true count
    and its rounding read 0 whatever the running count is, and the three
    category percentages read '0.0'. *)
Theorem missing_key_silences_true_count
    (gcs : string -> CountingSystem) (toFixed : Q -> nat -> string)
    (card : string) (st : State) :
  ~ In card objectPrototypeNames ->
  cardsRemaining st !! card = None ->
  forall st', st' = applyCard gcs card st \/ st' = removeCard gcs card st ->
    getTotalCardsRemaining st' = NaN
    /\ getRemainingDecks st' = None
    /\ getTrueCount st' = 0%Q
    /\ getTrueCountRounded st' = 0
    /\ plusOnePercent (getCardsRemainingByCategory toFixed st') = "0.0"
    /\ neutralPercent (getCardsRemainingByCategory toFixed st') = "0.0"
    /\ minusOnePercent (getCardsRemainingByCategory toFixed st') = "0.0".
Proof.
  intros _ Hcard st' Hst'.
  assert (Hnan : hasNaN (cardsRemaining st')).
  { exists card. destruct Hst' as [-> | ->].
    - unfold applyCard. rewrite Hcard. simpl. apply lookup_insert_eq.
    - unfold removeCard. rewrite Hcard. simpl. apply lookup_insert_eq. }
  destruct (NaN_zeroes_true_count st' Hnan) as (Ht & Hd & Htc & Hr).
  repeat (split; [assumption|]).
  unfold getCardsRemainingByCategory. simpl. rewrite Ht. repeat split.
Qed.

Lemma missing_key_silences_true_count_witness :
  let gcs := fun _ : string => hiLo in
  let st := run gcs (freshState (exampleRules 1)) [OpApply "2"; OpApply "3"] in
  ~ In "J" objectPrototypeNames
  /\ cardsRemaining st !! "J" = None
  /\ runningCount (applyCard gcs "J" st) = 2
  /\ getTrueCount (applyCard gcs "J" st) = 0%Q.
Proof.
  assert (Hown : ~ In "J" objectPrototypeNames).
  { simpl. intros H. repeat (destruct H as [H | H]; [discriminate|]). exact H. }
  split; [exact Hown|]. split; [reflexivity|]. split; [reflexivity|].
  apply (missing_key_silences_true_count (fun _ => hiLo) (fun _ _ => "") "J"
           (run (fun _ => hiLo) (freshState (exampleRules 1))
                [OpApply "2"; OpApply "3"]) Hown eq_refl).
  left. reflexivity.
Defined.

(** X11.  A NaN in the shoe stays: no deal, correction or quick count
    removes it, so the true count keeps reading 0 until an undo or a reset
    replaces the shoe. *)
Theorem NaN_persists
    (gcs : string -> CountingSystem) (op : Op) (st : State) :
  hasNaN (cardsRemaining st) ->
  op <> OpUndo -> op <> OpReset ->
  hasNaN (cardsRemaining (step gcs st op))
  /\ getTrueCount (step gcs st op) = 0%Q.
Proof.
  intros [k Hk] Hundo Hreset.
  assert (Hins : forall card v,
             (cardsRemaining st !! card = Some NaN -> v = NaN) ->
             hasNaN (<[card := v]> (cardsRemaining st))).
  { intros card v Hv. exists k. destruct (decide (card = k)) as [-> | Hne].
    - rewrite lookup_insert_eq, (Hv Hk). reflexivity.
    - rewrite lookup_insert_ne by assumption. exact Hk. }
  assert (Hnan : hasNaN (cardsRemaining (step gcs st op))).
  { destruct op as [card | card | value | |]; simpl; try contradiction.
    - unfold applyCard. destruct (js_le _ 0); [exists k; assumption|]. simpl.
      apply Hins. intros ->. reflexivity.
    - unfold removeCard. destruct (js_ge _ _); [exists k; assumption|]. simpl.
      apply Hins. intros ->. reflexivity.
    - unfold applyQuickCount. destruct (js_le _ 0); [exists k; assumption|].
      destruct (cardToRemove value (cardsRemaining st)); [|exists k; assumption].
      simpl. apply Hins. intros ->. reflexivity. }
  split; [exact Hnan|]. apply NaN_zeroes_true_count. exact Hnan.
Qed.

Lemma NaN_persists_witness :
  let gcs := fun _ : string => hiLo in
  let st := applyCard gcs "J" (freshState (exampleRules 1)) in
  hasNaN (cardsRemaining st)
  /\ OpApply "5" <> OpUndo /\ OpApply "5" <> OpReset
  /\ getTrueCount (step gcs st (OpApply "5")) = 0%Q.
Proof.
  assert (Hnan : hasNaN (cardsRemaining
                           (applyCard (fun _ => hiLo) "J" (freshState (exampleRules 1)))))
    by (exists "J"; reflexivity).
  split; [exact Hnan|]. split; [discriminate|]. split; [discriminate|].
  apply (NaN_persists (fun _ => hiLo) (OpApply "5") _ Hnan); discriminate.
Defined.

(** ** True count *)

(** *** Rounding of a quotient to a double *)

Lemma pow2_pos (e : Z) : (0 < 2 ^ e)%Q.
Proof. apply Qpower_0_lt. reflexivity. Qed.

Lemma pow2_succ (e : Z) : (2 ^ (e + 1) == 2 * 2 ^ e)%Q.
Proof.
  rewrite Qpower_plus by (intros H; discriminate H).
  rewrite Qpower_1_r. ring.
Qed.

Lemma log2_bounds_Q (p : Z) :
  0 < p ->
  (2 ^ Z.log2 p <= inject_Z p)%Q /\ (inject_Z p < 2 * 2 ^ Z.log2 p)%Q.
Proof.
  intros Hp. destruct (Z.log2_spec p Hp) as [Hlo Hhi].
  pose proof (Z.log2_nonneg p) as Hnn.
  split.
  - rewrite <- (Zpower_Qpower 2 (Z.log2 p)) by exact Hnn.
    rewrite <- Zle_Qle. exact Hlo.
  - rewrite <- pow2_succ.
    rewrite <- (Zpower_Qpower 2 (Z.log2 p + 1)) by lia.
    rewrite <- Zlt_Qlt. change (Z.succ (Z.log2 p)) with (Z.log2 p + 1) in Hhi. exact Hhi.
Qed.

Lemma Qabs_num_den (x : Q) :
  (Qabs x == inject_Z (Z.abs (Qnum x)) / inject_Z (Zpos (Qden x)))%Q.
Proof.
  destruct x as [n d]. unfold Qabs. simpl.
  rewrite (Qmake_Qdiv (Z.abs n) d). reflexivity.
Qed.

Lemma binade_spec (x : Q) :
  ~ (x == 0)%Q ->
  (2 ^ binade x <= Qabs x)%Q /\ (Qabs x < 2 * 2 ^ binade x)%Q.
Proof.
  intros Hx.
  assert (Hnum : 0 < Z.abs (Qnum x)).
  { destruct x as [n d]. simpl. unfold Qeq in Hx. simpl in Hx. lia. }
  destruct (log2_bounds_Q _ Hnum) as [Hp1 Hp2].
  destruct (log2_bounds_Q (Zpos (Qden x)) eq_refl) as [Hq1 Hq2].
  pose proof (Qabs_num_den x) as Habs.
  unfold binade.
  set (lp := Z.log2 (Z.abs (Qnum x))) in *.
  set (lq := Z.log2 (Z.pos (Qden x))) in *.
  set (P := inject_Z (Z.abs (Qnum x))) in *.
  set (D := inject_Z (Z.pos (Qden x))) in *.
  assert (HA : (0 < 2 ^ lp)%Q) by apply pow2_pos.
  assert (HB : (0 < 2 ^ lq)%Q) by apply pow2_pos.
  assert (HD : (0 < D)%Q) by lra.
  assert (Hl : (2 ^ (lp - lq) == 2 ^ lp / 2 ^ lq)%Q).
  { apply Qpower_minus. intros H; discriminate H. }
  assert (Hl1 : (2 ^ (lp - lq - 1) == 2 ^ lp / 2 ^ lq / 2)%Q).
  { rewrite Qpower_minus by (intros H; discriminate H). rewrite Hl, Qpower_1_r.
    reflexivity. }
  assert (Hup : (Qabs x < 2 * (2 ^ lp / 2 ^ lq))%Q).
  { rewrite Habs. apply Qlt_shift_div_r; [exact HD|].
    assert (E : (2 * (2 ^ lp / 2 ^ lq) * D == (2 * 2 ^ lp) * (D / 2 ^ lq))%Q)
      by (field; lra).
    rewrite E.
    assert (1 <= D / 2 ^ lq)%Q by (apply Qle_shift_div_l; [exact HB | lra]).
    nra. }
  assert (Hdown : (2 ^ lp / 2 ^ lq / 2 < Qabs x)%Q).
  { rewrite Habs. apply Qlt_shift_div_l; [exact HD|].
    assert (E : (2 ^ lp / 2 ^ lq / 2 * D == 2 ^ lp * (D / (2 * 2 ^ lq)))%Q)
      by (field; lra).
    rewrite E.
    assert (D / (2 * 2 ^ lq) < 1)%Q by (apply Qlt_shift_div_r; lra).
    assert (0 < D / (2 * 2 ^ lq))%Q by (apply Qlt_shift_div_l; lra).
    nra. }
  destruct (Qle_bool (2 ^ (lp - lq)) (Qabs x)) eqn:Hle.
  - apply Qle_bool_iff in Hle. split; [exact Hle|]. rewrite Hl. exact Hup.
  - assert (Hlt : (Qabs x < 2 ^ (lp - lq))%Q).
    { apply Qnot_le_lt. intros H. apply Qle_bool_iff in H. congruence. }
    rewrite Hl1. rewrite Hl in Hlt.
    set (L := (2 ^ lp / 2 ^ lq)%Q) in *.
    split; [lra|].
    assert (E : (2 * (L / 2) == L)%Q) by field.
    rewrite E. exact Hlt.
Qed.

Lemma roundHalfEven_error (y : Q) :
  (inject_Z (roundHalfEven y) - y <= 1 # 2)%Q
  /\ (y - inject_Z (roundHalfEven y) <= 1 # 2)%Q.
Proof.
  unfold roundHalfEven.
  pose proof (Qfloor_le y) as Hlo. pose proof (Qlt_floor y) as Hhi.
  rewrite inject_Z_plus in Hhi. change (inject_Z 1) with 1%Q in Hhi.
  destruct (y - inject_Z (Qfloor y) ?= 1 # 2)%Q eqn:Hc.
  - apply Qeq_alt in Hc.
    destruct (Z.even (Qfloor y)); [|rewrite inject_Z_plus; change (inject_Z 1) with 1%Q];
      split; lra.
  - apply Qlt_alt in Hc. split; lra.
  - apply Qgt_alt in Hc. rewrite inject_Z_plus. change (inject_Z 1) with 1%Q.
    split; lra.
Qed.

Lemma toDouble_error (x : Q) :
  (- (Qabs x * roundoff) <= toDouble x - x)%Q
  /\ (toDouble x - x <= Qabs x * roundoff)%Q.
Proof.
  unfold toDouble. destruct (Qeq_bool x 0) eqn:Hz.
  - apply Qeq_bool_iff in Hz. pose proof (Qabs_nonneg x) as Hnn.
    assert (Ha : (Qabs x == 0)%Q) by (rewrite Hz; reflexivity).
    unfold roundoff. split; lra.
  - assert (Hx : ~ (x == 0)%Q).
    { intros H. apply Qeq_bool_iff in H. congruence. }
    destruct (binade_spec x Hx) as [Hlo _].
    assert (Hpow : (2 ^ binade x == 2 ^ (binade x - 52) * 4503599627370496)%Q).
    { replace (binade x) with (binade x - 52 + 52) at 1 by lia.
      rewrite Qpower_plus by (intros H; discriminate H).
      assert (E : (2 ^ 52 == 4503599627370496)%Q) by reflexivity.
      rewrite E. reflexivity. }
    pose proof (pow2_pos (binade x - 52)) as Hulp.
    cbv zeta.
    set (ulp := (2 ^ (binade x - 52))%Q) in *.
    destruct (roundHalfEven_error (x / ulp)) as [H1 H2].
    set (m := inject_Z (roundHalfEven (x / ulp))) in *.
    assert (Hy : (x / ulp * ulp == x)%Q) by (field; lra).
    set (y := (x / ulp)%Q) in *.
    rewrite Hpow in Hlo.
    assert (E1 : (m * ulp - x == (m - y) * ulp)%Q) by (rewrite <- Hy; ring).
    unfold roundoff. split; rewrite E1; nra.
Qed.

Lemma quotient_error_nonneg (T d R tc : Q) :
  (0 < T)%Q -> (0 <= R)%Q ->
  (- (T * roundoff) <= d - T)%Q -> (d - T <= T * roundoff)%Q ->
  (- (R * roundoff) <= tc * d - R)%Q -> (tc * d - R <= R * roundoff)%Q ->
  (- (R * (4 * roundoff)) <= tc * T - R)%Q /\ (tc * T - R <= R * (4 * roundoff))%Q.
Proof.
  unfold roundoff. intros HT HR Hd1 Hd2 Ht1 Ht2.
  assert (Hdpos : (0 < d)%Q) by lra.
  assert (Htc : (0 <= tc)%Q).
  { destruct (Qlt_le_dec tc 0) as [Hneg | Hok]; [|exact Hok].
    exfalso. assert (tc * d < 0)%Q by nra. lra. }
  assert (Ha : (tc * d <= tc * T * (1 + (1 # 9007199254740992)))%Q) by nra.
  assert (Hb : (tc * T * (1 - (1 # 9007199254740992)) <= tc * d)%Q) by nra.
  set (a := (tc * d)%Q) in *. set (b := (tc * T)%Q) in *.
  split; lra.
Qed.

Lemma toDouble_opp_bounds (x : Q) :
  ((0 <= x -> 0 <= toDouble x) /\ (x <= 0 -> toDouble x <= 0))%Q.
Proof.
  destruct (toDouble_error x) as [H1 H2]. unfold roundoff in *. split; intros Hx.
  - rewrite (Qabs_pos x Hx) in H1. lra.
  - rewrite (Qabs_neg x Hx) in H2. lra.
Qed.

Lemma quotient_error (T R : Q) :
  (0 < T)%Q ->
  let d := toDouble T in
  let tc := toDouble (R / d) in
  (0 < d)%Q
  /\ (- (Qabs R * (4 * roundoff)) <= tc * T - R)%Q
  /\ (tc * T - R <= Qabs R * (4 * roundoff))%Q.
Proof.
  intros HT d tc.
  destruct (toDouble_error T) as [Hd1 Hd2]. fold d in Hd1, Hd2.
  rewrite (Qabs_pos T) in Hd1, Hd2 by lra.
  assert (Hd : (0 < d)%Q) by (unfold roundoff in *; lra).
  split; [exact Hd|].
  destruct (toDouble_error (R / d)) as [Ht1 Ht2]. fold tc in Ht1, Ht2.
  assert (Hz : (R / d * d == R)%Q) by (field; lra).
  set (z := (R / d)%Q) in *.
  destruct (Qlt_le_dec R 0) as [Hneg | Hpos].
  - assert (Hzneg : (z <= 0)%Q).
    { destruct (Qlt_le_dec 0 z) as [Hc | Hc]; [|exact Hc]. exfalso. nra. }
    rewrite (Qabs_neg z Hzneg) in Ht1, Ht2.
    rewrite (Qabs_neg R) by lra.
    destruct (quotient_error_nonneg T d (- R) (- tc)) as [G1 G2];
      try lra; unfold roundoff in *; try nra.
  - assert (Hzpos : (0 <= z)%Q).
    { destruct (Qlt_le_dec z 0) as [Hc | Hc]; [|exact Hc]. exfalso. nra. }
    rewrite (Qabs_pos z Hzpos) in Ht1, Ht2.
    rewrite (Qabs_pos R Hpos).
    apply (quotient_error_nonneg T d R tc); try lra; unfold roundoff in *; nra.
Qed.

(** X12.  With a positive integer total of [t] cards the true count is
    the running count per remaining deck, up to the rounding of the two
    divisions: the true count times [t] differs from 52 times the running
    count by at most 2^-51 of the latter (the two are equal wherever both
    divisions are exact, and the true count is 0 when the running count
    is).  With a total of 0 or less the division is skipped and the true
    count is 0.  The counts are integers that a double holds exactly. *)
Theorem true_count_per_deck (st : State) (t : Z) :
  getTotalCardsRemaining st = Int t ->
  t <= 2 ^ 53 ->
  Z.abs (runningCount st) <= 2 ^ 53 ->
  (0 < t ->
   (Qabs (getTrueCount st * inject_Z t - inject_Z (52 * runningCount st))
    <= Qabs (inject_Z (52 * runningCount st)) * (4 * roundoff))%Q)
  /\ (t <= 0 -> getTrueCount st = 0%Q).
Proof.
  intros Htotal _ _. unfold getTrueCount, getRemainingDecks. rewrite Htotal.
  split; intros Ht.
  - assert (Hpos : (inject_Z 0 < inject_Z t)%Q) by (rewrite <- Zlt_Qlt; exact Ht).
    change (inject_Z 0) with 0%Q in Hpos.
    assert (HT : (0 < inject_Z t / 52)%Q).
    { apply Qlt_shift_div_l; [reflexivity | lra]. }
    destruct (quotient_error (inject_Z t / 52) (inject_Z (runningCount st)) HT)
      as (Hd & H1 & H2).
    destruct (Qle_bool (toDouble (inject_Z t / 52)) 0) eqn:Hle.
    { apply Qle_bool_iff in Hle. lra. }
    set (tc := toDouble (inject_Z (runningCount st) / toDouble (inject_Z t / 52))) in *.
    rewrite inject_Z_mult. change (inject_Z 52) with 52%Q.
    set (R := inject_Z (runningCount st)) in *.
    assert (E : (tc * inject_Z t - 52 * R == 52 * (tc * (inject_Z t / 52) - R))%Q)
      by field.
    rewrite E, !Qabs_Qmult. change (Qabs 52) with 52%Q.
    assert (Habs : (Qabs (tc * (inject_Z t / 52) - R) <= Qabs R * (4 * roundoff))%Q).
    { apply Qabs_Qle_condition. split; lra. }
    pose proof (Qabs_nonneg R). unfold roundoff in *. nra.
  - destruct (Qle_bool (toDouble (inject_Z t / 52)) 0) eqn:Hle; [reflexivity|].
    exfalso.
    assert (Hq : (inject_Z t <= inject_Z 0)%Q) by (rewrite <- Zle_Qle; exact Ht).
    change (inject_Z 0) with 0%Q in Hq.
    assert (Hneg : (inject_Z t / 52 <= 0)%Q).
    { apply Qle_shift_div_r; [reflexivity | lra]. }
    pose proof (proj2 (toDouble_opp_bounds _) Hneg) as Hd.
    apply Qle_bool_iff in Hd. congruence.
Qed.

Lemma true_count_per_deck_witness :
  let st := applyCard (fun _ => hiLo) "5" (freshState (exampleRules 6)) in
  getTotalCardsRemaining st = Int 311
  /\ runningCount st = 1
  /\ (Qabs (getTrueCount st * inject_Z 311 - inject_Z (52 * runningCount st))
      <= Qabs (inject_Z (52 * runningCount st)) * (4 * roundoff))%Q.
Proof.
  split; [reflexivity|]. split; [reflexivity|].
  apply (proj1 (true_count_per_deck
                  (applyCard (fun _ => hiLo) "5" (freshState (exampleRules 6)))
                  311 eq_refl
                  ltac:(vm_compute; discriminate) ltac:(vm_compute; discriminate))).
  reflexivity.
Defined.

(** ** Quick-count buttons and category counts *)

Lemma sumOver_nonneg (m : gmap string jsnum) (keys : list string) :
  map_Forall (fun _ v => nonNegative v) m -> 0 <= sumOver m keys.
Proof.
  intros Hall. induction keys as [|k keys IH]; simpl; [lia|].
  destruct (m !! k) as [[n|]|] eqn:Hk; simpl; try lia.
  specialize (Hall k (Int n) Hk). simpl in Hall. lia.
Qed.

Lemma sumOver_zero (m : gmap string jsnum) (keys : list string) :
  map_Forall (fun _ v => nonNegative v) m ->
  sumOver m keys = 0 <-> firstAvailable m keys = None.
Proof.
  intros Hall. induction keys as [|k keys IH]; simpl; [tauto|].
  pose proof (sumOver_nonneg m keys Hall) as Hrest.
  destruct (m !! k) as [[n|]|] eqn:Hk; simpl.
  - specialize (Hall k (Int n) Hk). simpl in Hall.
    destruct (0 <? n) eqn:Hpos.
    + split; [unfold sumOver in *; lia | discriminate].
    + rewrite <- IH. unfold sumOver in *. split; lia.
  - rewrite <- IH. unfold sumOver. split; lia.
  - rewrite <- IH. unfold sumOver. split; lia.
Qed.

Lemma quick_noop_iff (value : Z) (st : State) :
  map_Forall (fun _ v => nonNegative v) (cardsRemaining st) ->
  applyQuickCount value st = st
  <-> firstAvailable (cardsRemaining st) (bucketOrder value) = None.
Proof.
  intros Hall. split.
  - intros Heq.
    destruct (firstAvailable (cardsRemaining st) (bucketOrder value))
      as [card|] eqn:Hpick; [|reflexivity].
    exfalso. rewrite <- cardToRemove_firstAvailable in Hpick.
    destruct (cardToRemove_available _ _ _ Hpick) as (n & Hn & Hpos).
    unfold applyQuickCount in Heq.
    rewrite (total_guard_passes st card n Hall Hn Hpos), Hpick in Heq.
    apply (f_equal (fun s => length (history s))) in Heq. simpl in Heq.
    rewrite length_app in Heq. simpl in Heq. lia.
  - intros Hnone. unfold applyQuickCount.
    destruct (js_le _ 0); [reflexivity|].
    rewrite cardToRemove_firstAvailable, Hnone. reflexivity.
Qed.

(** X13.  In a shoe without negative entries each quick-count button does
    nothing exactly when the count of its category, as
    [getCardsRemainingByCategory] reports it, is 0: +1 with the plus-one
    count, 0 with the neutral count, -1 with the minus-one count. *)
Theorem quick_button_idle_iff_category_empty
    (toFixed : Q -> nat -> string) (st : State) :
  map_Forall (fun _ v => nonNegative v) (cardsRemaining st) ->
  let c := getCardsRemainingByCategory toFixed st in
  (applyQuickCount 1 st = st <-> plusOne c = 0)
  /\ (applyQuickCount 0 st = st <-> neutral c = 0)
  /\ (applyQuickCount (-1) st = st <-> minusOne c = 0).
Proof.
  intros Hall c. subst c. unfold getCardsRemainingByCategory. simpl.
  rewrite !countCards_sumOver.
  rewrite !(quick_noop_iff _ st Hall).
  change (bucketOrder 1) with ["2"; "3"; "4"; "5"; "6"].
  change (bucketOrder 0) with ["7"; "8"; "9"].
  change (bucketOrder (-1)) with ["10"; "A"].
  rewrite <- !(sumOver_zero _ _ Hall).
  repeat split; unfold sumOver; simpl; lia.
Qed.

Lemma quick_button_idle_iff_category_empty_witness :
  let c := getCardsRemainingByCategory (fun _ _ => "") twosDealt in
  map_Forall (fun _ v => nonNegative v) (cardsRemaining twosDealt)
  /\ (applyQuickCount 1 twosDealt = twosDealt <-> plusOne c = 0).
Proof.
  split; [exact twosDealt_nonNegative|].
  apply (quick_button_idle_iff_category_empty (fun _ _ => "") twosDealt
           twosDealt_nonNegative).
Defined.

(** ** Bounds on the total *)

(** X14.  In a session that starts from a fresh shoe and applies and
    removes only the ten ranks, the total of the remaining cards is always
    an integer between 0 and 52 per deck. *)
Theorem total_between_zero_and_full
    (gcs : string -> CountingSystem) (st0 : State) (ops : list Op) :
  0 <= numDecks (rules st0) ->
  Forall validOp ops ->
  exists t,
    getTotalCardsRemaining (run gcs (resetShoe st0) ops) = Int t
    /\ 0 <= t <= 52 * numDecks (rules st0).
Proof.
  intros Hdecks Hops.
  destruct (reachable_tenCounts gcs st0 ops Hops) as [Hdom Hint].
  assert (Hinv : sessionInvariant (rules st0) (run gcs (resetShoe st0) ops)).
  { apply sessionInvariant_run; [assumption|].
    apply sessionInvariant_reset; [assumption | reflexivity]. }
  destruct Hinv as (_ & Hcap & _).
  unfold getTotalCardsRemaining.
  rewrite (sumValues_keys ranks ranks_NoDup _ Hdom Hint).
  eexists. split; [reflexivity|].
  unfold sumOver, ranks. simpl.
  repeat match goal with
         | |- context [js_or0 (?m !! ?k)] =>
             let n := fresh "n" in
             let Hn := fresh "Hn" in
             let Hb := fresh "Hb" in
             destruct (Hcap k ltac:(unfold ranks; simpl; tauto)) as (n & Hn & Hb);
             rewrite Hn; unfold capacity in Hb; simpl in Hb
         end.
  simpl. lia.
Qed.

Lemma total_between_zero_and_full_witness :
  let gcs := fun _ : string => hiLo in
  let ops := [OpApply "5"; OpRemove "5"; OpRemove "5"; OpQuickApply 1; OpUndo] in
  0 <= numDecks (rules (freshState (exampleRules 2)))
  /\ Forall validOp ops
  /\ exists t,
       getTotalCardsRemaining (run gcs (resetShoe (freshState (exampleRules 2))) ops)
       = Int t
       /\ 0 <= t <= 52 * numDecks (rules (freshState (exampleRules 2))).
Proof.
  assert (Hops : Forall validOp
            [OpApply "5"; OpRemove "5"; OpRemove "5"; OpQuickApply 1; OpUndo]).
  { repeat constructor; simpl; tauto. }
  split; [simpl; lia|]. split; [exact Hops|].
  apply (total_between_zero_and_full (fun _ => hiLo) (freshState (exampleRules 2)) _);
    [simpl; lia | exact Hops].
Defined.

(** ** Text entry of cards *)

Example quickInputCards_examples :
  quickInputCards "10,J,A,7,3" = ["10"; "J"; "A"; "7"; "3"]
  /\ quickInputCards " k , a,,5 " = ["K"; "A"; ""; "5"]
  /\ quickInputCards "" = [""].
Proof. repeat split. Qed.

(** [trim] strips the white space of more than one byte as well: a
    no-break space (U+00A0, bytes 194 160) in front of an entry and an
    ideographic space (U+3000, bytes 227 128 128) behind it. *)
Example trim_strips_wide_white_space :
  let nbsp := String (ascii_of_nat 194) (String (ascii_of_nat 160) EmptyString) in
  let wide :=
    String (ascii_of_nat 227)
           (String (ascii_of_nat 128) (String (ascii_of_nat 128) EmptyString)) in
  quickInputCards ("5," ++ nbsp ++ "3" ++ wide) = ["5"; "3"]
  /\ processQuickInput (fun _ => hiLo) ("5," ++ nbsp ++ "3")
                       (freshState (exampleRules 1))
     = applyCard (fun _ => hiLo) "3" (freshState (exampleRules 1)).
Proof. split; reflexivity. Qed.

Lemma last_cons_cases {A : Type} (x : A) (l : list A) :
  last (x :: l) = match last l with Some y => Some y | None => Some x end.
Proof.
  destruct l as [|y l]; [reflexivity|].
  change (last (x :: y :: l)) with (last (y :: l)).
  destruct (last (y :: l)) eqn:Hlast; [reflexivity|].
  apply last_None in Hlast. discriminate.
Qed.

Lemma callApplyCard_accepted (gcs : string -> CountingSystem) (st pending : State)
    (card : string) :
  entryAccepted gcs st card = true ->
  rules pending = rules st ->
  handType pending = handType st ->
  handValue pending = handValue st ->
  dealerCard pending = dealerCard st ->
  recommendation pending = recommendation st ->
  callApplyCard gcs st (normalizedCard card) pending
  = applyCard gcs (normalizedCard card) st.
Proof.
  intros Hacc Hr Ht Hv Hd Hrec. unfold entryAccepted in Hacc.
  destruct (tags _ !! normalizedCard card); [|discriminate].
  apply js_gt_true in Hacc as (n & Hn & Hpos).
  unfold callApplyCard, applyCard. rewrite Hn. simpl.
  destruct (n <=? 0) eqn:Hle; [lia|]. simpl.
  rewrite Hr, Ht, Hv, Hd, Hrec. reflexivity.
Qed.

Lemma forEach_last_accepted (gcs : string -> CountingSystem) (st : State)
    (cards : list string) (pending : State) :
  rules pending = rules st ->
  handType pending = handType st ->
  handValue pending = handValue st ->
  dealerCard pending = dealerCard st ->
  recommendation pending = recommendation st ->
  forEachCard gcs st cards pending
  = match last (List.filter (entryAccepted gcs st) cards) with
    | Some card => applyCard gcs (normalizedCard card) st
    | None => pending
    end.
Proof.
  unfold forEachCard.
  revert pending. induction cards as [|card cards IH]; intros pending Hr Ht Hv Hd Hrec;
    [reflexivity|].
  simpl. destruct (entryAccepted gcs st card) eqn:Hacc.
  - rewrite (callApplyCard_accepted gcs st pending card Hacc Hr Ht Hv Hd Hrec).
    rewrite IH.
    + rewrite last_cons_cases.
      destruct (last (List.filter (entryAccepted gcs st) cards)); reflexivity.
    + unfold applyCard. destruct (js_le _ 0); reflexivity.
    + unfold applyCard. destruct (js_le _ 0); reflexivity.
    + unfold applyCard. destruct (js_le _ 0); reflexivity.
    + unfold applyCard. destruct (js_le _ 0); reflexivity.
    + unfold applyCard. destruct (js_le _ 0); reflexivity.
  - apply IH; assumption.
Qed.

(** X15.  Of the entries that the loop of [processQuickInput] goes
    through, only the last accepted one is dealt: every accepted entry is
    applied to the shoe of the render the handler belongs to, and the cells
    it sets replace those of the entries before it.  With no accepted entry
    the state is unchanged.  The entries are the array that upper-casing,
    splitting and trimming make of the text, whatever it holds. *)
Theorem quick_input_deals_last_accepted
    (gcs : string -> CountingSystem) (cards : list string) (st : State) :
  forEachCard gcs st cards st
  = match last (List.filter (entryAccepted gcs st) cards) with
    | Some card => applyCard gcs (normalizedCard card) st
    | None => st
    end.
Proof.
  apply forEach_last_accepted; reflexivity.
Qed.

(** X16.  A quick input never does what a direct [applyCard] on an unknown
    rank does: it adds no key to the shoe, writes no NaN, lowers the total
    by at most one card and pushes at most one history entry, whatever the
    text. *)
Theorem quick_input_keeps_shoe_sound
    (gcs : string -> CountingSystem) (quickInput : string) (st : State) :
  let st' := processQuickInput gcs quickInput st in
  dom (cardsRemaining st') = dom (cardsRemaining st)
  /\ (map_Forall (fun _ v => v <> NaN) (cardsRemaining st) ->
      map_Forall (fun _ v => v <> NaN) (cardsRemaining st'))
  /\ (forall t, getTotalCardsRemaining st = Int t ->
        getTotalCardsRemaining st' = Int t
        \/ getTotalCardsRemaining st' = Int (t - 1))
  /\ (length (history st') <= S (length (history st)))%nat.
Proof.
  intros st'. subst st'. unfold processQuickInput.
  rewrite forEach_last_accepted by reflexivity.
  destruct (last (List.filter (entryAccepted gcs st) (quickInputCards quickInput)))
    as [card|] eqn:Hlast.
  - assert (Hacc : entryAccepted gcs st card = true).
    { apply last_Some in Hlast as [pre Hpre].
      assert (Hin : In card (List.filter (entryAccepted gcs st)
                               (quickInputCards quickInput))).
      { rewrite Hpre. apply in_or_app. right. left. reflexivity. }
      apply filter_In in Hin as [_ Hin]. exact Hin. }
    unfold entryAccepted in Hacc.
    destruct (tags _ !! normalizedCard card); [|discriminate].
    apply js_gt_true in Hacc as (n & Hn & Hpos).
    unfold applyCard. rewrite Hn. simpl.
    destruct (n <=? 0) eqn:Hle; [lia|]. simpl.
    split; [|split; [|split]].
    + rewrite dom_insert_L. apply subseteq_union_1_L, singleton_subseteq_l.
      apply elem_of_dom. eauto.
    + intros Hint. apply map_Forall_insert_2; [discriminate | assumption].
    + intros t Ht. right. unfold getTotalCardsRemaining in *. simpl.
      rewrite (sumValues_replace _ _ n (n - 1) t Hn Ht). f_equal. lia.
    + rewrite length_app. simpl. lia.
  - split; [reflexivity|]. split; [tauto|]. split; [auto|]. lia.
Qed.

(** ** Tiers of the legacy recommendation *)

Ltac key_row k lit :=
  let E := fresh "E" in
  destruct (String.eqb k lit) eqn:E;
  [ apply String.eqb_eq in E; subst k; cbn;
    repeat match goal with
           | |- context [?n =? ?c] => destruct (n =? c) eqn:?
           end;
    cbn;
    repeat match goal with
           | |- context [?i <=? ?t] => destruct (i <=? t) eqn:?
           end;
    first [reflexivity | exfalso; lia]
  | cbn ].

Lemma deviationTier_index (st : State) :
  deviationTier st
  = match deviationIndex (handType st ++ "-" ++ handValue st)
                         (dealerValue (dealerCard st)) with
    | Some (i, a) =>
        if i <=? getTrueCountRounded st
        then (Some a, IndexNote i a (getTrueCountRounded st))
        else (None, BasicStrategyNote)
    | None => (None, BasicStrategyNote)
    end.
Proof.
  unfold deviationTier, deviationIndex.
  generalize (getTrueCountRounded st) as tc.
  generalize (dealerValue (dealerCard st)) as dealer.
  generalize (handType st ++ "-" ++ handValue st) as k.
  intros k [n|] tc; cbn [num_eq];
    [|repeat rewrite andb_false_r; reflexivity].
  key_row k "hard-16". key_row k "hard-15". key_row k "hard-12".
  key_row k "hard-10". key_row k "hard-11". key_row k "hard-9".
  key_row k "soft-8". key_row k "pairs-9".
  reflexivity.
Qed.

Lemma deviationIndex_rows (k : string) (dealer : option Z) (i : Z) (a : Action) :
  deviationIndex k dealer = Some (i, a) ->
  0 <= i /\ (a = Stand \/ a = Double \/ a = Split).
Proof.
  unfold deviationIndex.
  repeat match goal with
         | |- context [if ?b then _ else _] => destruct b
         end;
    intros H; try discriminate; injection H as <- <-; split; try lia; tauto.
Qed.

Lemma hardAction_hand (v dealer : option Z) :
  hardAction v dealer <> Insurance /\ hardAction v dealer <> Surrender.
Proof.
  unfold hardAction.
  repeat match goal with
         | |- context [if ?b then _ else _] => destruct b
         end; split; discriminate.
Qed.

Lemma softAction_hand (v dealer : option Z) (a : Action) :
  softAction v dealer = Some a -> a <> Insurance /\ a <> Surrender.
Proof.
  unfold softAction.
  repeat match goal with
         | |- context [if ?b then _ else _] => destruct b
         end; intros H; try discriminate; injection H as <-; split; discriminate.
Qed.

Lemma pairsAction_hand (handValue : string) (dealer : option Z) (r : Rules)
    (a : Action) :
  pairsAction handValue dealer r = Some a -> a <> Insurance /\ a <> Surrender.
Proof.
  unfold pairsAction.
  repeat match goal with
         | |- context [if ?b then _ else _] => destruct b
         end; intros H; try discriminate; injection H as <-; split; discriminate.
Qed.

Lemma basicStrategy_hand (handType handValue : string) (dealer : option Z)
    (r : Rules) :
  getBasicStrategyActionLegacy handType handValue dealer r <> Insurance
  /\ getBasicStrategyActionLegacy handType handValue dealer r <> Surrender.
Proof.
  unfold getBasicStrategyActionLegacy, strategyEntry.
  destruct (String.eqb handType "hard"); [apply hardAction_hand|].
  destruct (String.eqb handType "soft").
  { destruct (softAction _ _) eqn:H; [apply (softAction_hand _ _ _ H)|].
    split; discriminate. }
  destruct (String.eqb handType "pairs").
  { destruct (pairsAction _ _ _) eqn:H; [apply (pairsAction_hand _ _ _ _ H)|].
    split; discriminate. }
  split; discriminate.
Qed.

Lemma deviationTier_cases (st : State) :
  deviationTier st = (None, BasicStrategyNote)
  \/ exists i a,
       deviationTier st = (Some a, IndexNote i a (getTrueCountRounded st))
       /\ 0 <= i <= getTrueCountRounded st
       /\ (a = Stand \/ a = Double \/ a = Split).
Proof.
  rewrite deviationTier_index.
  destruct (deviationIndex _ _) as [[i a]|] eqn:Hrow; [|left; reflexivity].
  destruct (i <=? getTrueCountRounded st) eqn:Hle; [|left; reflexivity].
  right. exists i, a. destruct (deviationIndex_rows _ _ _ _ Hrow) as [Hi Ha].
  split; [reflexivity|]. split; [lia | exact Ha].
Qed.

Lemma num_eq_true (v : option Z) (k : Z) : num_eq v k = true <-> v = Some k.
Proof.
  destruct v as [n|]; simpl; [|split; discriminate].
  rewrite Z.eqb_eq. split; [intros ->; reflexivity | intros [= ->]; reflexivity].
Qed.

Lemma surrender_condition (v dealer : option Z) :
  (num_eq v 16 && includes [9; 10; 11] dealer) || (num_eq v 15 && num_eq dealer 10)
  = true
  <-> (v = Some 16
       /\ (dealer = Some 9 \/ dealer = Some 10 \/ dealer = Some 11))
      \/ (v = Some 15 /\ dealer = Some 10).
Proof.
  rewrite orb_true_iff, !andb_true_iff, !num_eq_true.
  assert (Hinc : includes [9; 10; 11] dealer = true
                 <-> dealer = Some 9 \/ dealer = Some 10 \/ dealer = Some 11).
  { destruct dealer as [d|]; simpl.
    - rewrite !orb_true_iff, !Z.eqb_eq.
      split.
      + intros [-> | [-> | [-> | H]]]; auto. discriminate.
      + intros [[= ->] | [[= ->] | [= ->]]]; auto.
    - split; [discriminate | intros [H | [H | H]]; discriminate]. }
  rewrite Hinc. tauto.
Qed.

Lemma surrenderTier_fires (st : State) :
  (surrenderTier st = (Some Surrender, LateSurrenderNote)
   /\ lateSurrender (rules st) = true /\ inSurrenderSet st)
  \/ (surrenderTier st = (None, BasicStrategyNote)
      /\ ~ (lateSurrender (rules st) = true /\ inSurrenderSet st)).
Proof.
  unfold surrenderTier, inSurrenderSet.
  destruct (lateSurrender (rules st));
    [|right; split; [reflexivity | intros [H _]; discriminate]].
  destruct (String.eqb (handType st) "hard") eqn:Htype.
  - apply String.eqb_eq in Htype.
    destruct ((num_eq (parseInt (handValue st)) 16
               && includes [9; 10; 11] (dealerValue (dealerCard st)))
              || (num_eq (parseInt (handValue st)) 15
                  && num_eq (dealerValue (dealerCard st)) 10)) eqn:Hcond.
    + left. apply surrender_condition in Hcond. auto.
    + right. split; [reflexivity|]. intros (_ & _ & Hset).
      apply surrender_condition in Hset. congruence.
  - right. split; [reflexivity|]. intros [_ [Hhard _]].
    rewrite Hhard in Htype. discriminate.
Qed.

Lemma handTiers_cases (st : State) :
  (handTiers st = (Surrender, LateSurrenderNote)
   /\ lateSurrender (rules st) = true /\ inSurrenderSet st)
  \/ (~ (lateSurrender (rules st) = true /\ inSurrenderSet st)
      /\ ((exists i a,
              handTiers st = (a, IndexNote i a (getTrueCountRounded st))
              /\ deviationTier st = (Some a, IndexNote i a (getTrueCountRounded st))
              /\ 0 <= i <= getTrueCountRounded st
              /\ (a = Stand \/ a = Double \/ a = Split))
          \/ (handTiers st
              = (getBasicStrategyActionLegacy (handType st) (handValue st)
                   (dealerValue (dealerCard st)) (rules st), BasicStrategyNote)
              /\ deviationTier st = (None, BasicStrategyNote)))).
Proof.
  unfold handTiers.
  destruct (surrenderTier_fires st) as [(-> & Hl & Hs) | (-> & Hnot)];
    [left; auto|].
  right. split; [exact Hnot|].
  destruct (deviationTier_cases st) as [Hdev | (i & a & Hdev & Hi & Ha)];
    rewrite Hdev.
  - right. split; reflexivity.
  - left. exists i, a. auto.
Qed.

Lemma handTiers_not_insurance (st : State) : fst (handTiers st) <> Insurance.
Proof.
  destruct (handTiers_cases st)
    as [(H & _) | (_ & [(i & a & H & _ & _ & Ha) | (H & _)])];
    rewrite H; simpl.
  - discriminate.
  - destruct Ha as [-> | [-> | ->]]; discriminate.
  - apply basicStrategy_hand.
Qed.

Lemma insuranceFires_iff (st : State) :
  insuranceFires st = true
  <-> dealerValue (dealerCard st) = Some 11
      /\ insurance (rules st) = true
      /\ 3 <= getTrueCountRounded st.
Proof.
  unfold insuranceFires.
  rewrite !andb_true_iff, num_eq_true, Z.leb_le. tauto.
Qed.

(** *** The function on a request *)

(** C5, the code on a request with the ace up.  When the dealer card is
    the ace, insurance is enabled and the rounded true count is at least 3,
    [getRecommendationLegacy] takes its insurance return: the object it
    builds has the action Insurance where the claim has a hand action (the
    hand tiers, which are not run, never yield Insurance) and no field for
    an insurance flag; and building it throws a ReferenceError for
    [calculateEV], so no recommendation is stored and every cell stays as
    it was. *)
Theorem insurance_selected_then_throws
    (calculateEV : Z -> Rules -> Q) (st : State) :
  dealerCard st = "A" ->
  insurance (rules st) = true ->
  3 <= getTrueCountRounded st ->
  legacyDecision st = (Insurance, InsuranceNote (getTrueCountRounded st))
  /\ fst (handTiers st) <> fst (legacyDecision st)
  /\ getRecommendationLegacy calculateEV st
     = Throw (ReferenceError "calculateEV")
  /\ cellsAfter st (getRecommendationLegacy calculateEV st) = st.
Proof.
  intros Hdealer Hins Htc.
  pose proof (legacyDecision_insurance st Hdealer Hins Htc) as Hsel.
  split; [exact Hsel|]. split.
  - rewrite Hsel. simpl. apply handTiers_not_insurance.
  - rewrite getRecommendationLegacy_throws. split; reflexivity.
Qed.

Lemma insurance_selected_then_throws_witness :
  dealerCard aceUp = "A"
  /\ insurance (rules aceUp) = true
  /\ getTrueCountRounded aceUp = 4
  /\ handTiers aceUp = (Hit, BasicStrategyNote)
  /\ legacyDecision aceUp = (Insurance, InsuranceNote (getTrueCountRounded aceUp))
  /\ getRecommendationLegacy (fun _ _ => 0%Q) aceUp
     = Throw (ReferenceError "calculateEV")
  /\ recommendation
       (cellsAfter aceUp (getRecommendationLegacy (fun _ _ => 0%Q) aceUp))
     = None.
Proof.
  split; [reflexivity|]. split; [reflexivity|].
  split; [vm_compute; reflexivity|]. split; [vm_compute; reflexivity|].
  destruct (insurance_selected_then_throws (fun _ _ => 0%Q) aceUp)
    as (Hsel & _ & Hthrow & Hcells);
    [reflexivity | reflexivity | vm_compute; discriminate |].
  split; [exact Hsel|]. split; [exact Hthrow|].
  rewrite Hcells. reflexivity.
Defined.

(** C6, the code on hard 16 against 10.  With late surrender off (the only
    surrender rule the function reads), [getRecommendationLegacy] selects
    what the claim says, Stand by index 0 from a rounded true count of 0
    upwards and the basic-strategy Hit below, and then throws a
    ReferenceError for [calculateEV] while it builds the argument of
    [setRecommendation]: the recommended action is never stored and every
    cell stays as it was. *)
Theorem hard16_vs_10_selected_then_throws
    (calculateEV : Z -> Rules -> Q) (st : State) :
  handType st = "hard" ->
  handValue st = "16" ->
  dealerCard st = "10" ->
  lateSurrender (rules st) = false ->
  legacyDecision st
  = (if 0 <=? getTrueCountRounded st
     then (Stand, IndexNote 0 Stand (getTrueCountRounded st))
     else (Hit, BasicStrategyNote))
  /\ getRecommendationLegacy calculateEV st
     = Throw (ReferenceError "calculateEV")
  /\ cellsAfter st (getRecommendationLegacy calculateEV st) = st.
Proof.
  intros Htype Hvalue Hdealer Hsurr.
  destruct (legacyDecision_hard16_vs_10 st Htype Hvalue Hdealer Hsurr)
    as [Hup Hdown].
  split.
  - destruct (0 <=? getTrueCountRounded st) eqn:Hle.
    + apply Hup. lia.
    + apply Hdown. lia.
  - rewrite getRecommendationLegacy_throws. split; reflexivity.
Qed.

Lemma hard16_vs_10_selected_then_throws_witness :
  let st := freshState (exampleRules 6) in
  handType st = "hard" /\ handValue st = "16" /\ dealerCard st = "10"
  /\ lateSurrender (rules st) = false
  /\ getTrueCountRounded st = 0
  /\ legacyDecision st = (Stand, IndexNote 0 Stand 0)
  /\ getRecommendationLegacy (fun _ _ => 0%Q) st
     = Throw (ReferenceError "calculateEV")
  /\ recommendation (cellsAfter st (getRecommendationLegacy (fun _ _ => 0%Q) st))
     = None.
Proof.
  do 5 (split; [reflexivity|]).
  destruct (hard16_vs_10_selected_then_throws (fun _ _ => 0%Q)
              (freshState (exampleRules 6)) eq_refl eq_refl eq_refl eq_refl)
    as (Hsel & Hthrow & Hcells).
  split; [exact Hsel|]. split; [exact Hthrow|].
  rewrite Hcells. reflexivity.
Defined.

(** *** What the function selects *)

(** X17.  The legacy recommendation selects Insurance in exactly one
    situation: the dealer card is the ace (or reads as 11), insurance is
    enabled and the rounded true count is 3 or more.  No hand tier ever
    yields Insurance. *)
Theorem insurance_only_when_it_fires (st : State) :
  fst (legacyDecision st) = Insurance
  <-> dealerValue (dealerCard st) = Some 11
      /\ insurance (rules st) = true
      /\ 3 <= getTrueCountRounded st.
Proof.
  rewrite <- insuranceFires_iff. unfold legacyDecision.
  destruct (insuranceFires st); simpl.
  - split; reflexivity.
  - split; [|discriminate].
    intros H. exfalso. apply (handTiers_not_insurance st H).
Qed.

(** X18.  The legacy recommendation selects Surrender exactly when the
    insurance tier does not fire, late surrender is enabled and the hand is
    hard 16 against 9, 10 or the ace, or hard 15 against 10.  It does so at
    every true count: surrender comes before the index deviations. *)
Theorem surrender_only_in_its_set (st : State) :
  fst (legacyDecision st) = Surrender
  <-> insuranceFires st = false
      /\ lateSurrender (rules st) = true
      /\ inSurrenderSet st.
Proof.
  unfold legacyDecision.
  destruct (insuranceFires st); simpl;
    [split; [discriminate | intros [H _]; discriminate]|].
  destruct (handTiers_cases st)
    as [(H & Hl & Hs) | (Hnot & [(i & a & H & _ & _ & Ha) | (H & _)])];
    rewrite H; simpl.
  - split; auto.
  - split; [|intros (_ & Hl & Hs); exfalso; apply Hnot; auto].
    destruct Ha as [-> | [-> | ->]]; discriminate.
  - split; [|intros (_ & Hl & Hs); exfalso; apply Hnot; auto].
    intros Hs. exfalso. apply (proj2 (basicStrategy_hand _ _ _ _) Hs).
Qed.

(** The insurance return comes before the deviations: hard 11 against
    the ace is Double by index 1 at a rounded true count of 2 and
    Insurance at 3. *)
Example insurance_precedes_deviation :
  getTrueCountRounded (elevenAgainstAce 4) = 2
  /\ legacyDecision (elevenAgainstAce 4) = (Double, IndexNote 1 Double 2)
  /\ getTrueCountRounded (elevenAgainstAce 6) = 3
  /\ legacyDecision (elevenAgainstAce 6) = (Insurance, InsuranceNote 3).
Proof. repeat split; vm_compute; reflexivity. Qed.

(** X19.  An index deviation has no upper bound and no hysteresis of its
    own.  Under the same rules, for the same hand and dealer card: when the
    function selects an action by an index deviation at one rounded true
    count, then at every rounded true count that is as high or higher it
    selects the same action by the same index, unless the insurance return
    fires there (dealer ace, insurance enabled, rounded true count 3 or
    more), in which case it selects Insurance. *)
Theorem deviation_fires_upward (st1 st2 : State) (i tc : Z) (a : Action) :
  rules st1 = rules st2 ->
  handType st1 = handType st2 ->
  handValue st1 = handValue st2 ->
  dealerCard st1 = dealerCard st2 ->
  getTrueCountRounded st1 <= getTrueCountRounded st2 ->
  snd (legacyDecision st1) = IndexNote i a tc ->
  legacyDecision st2
  = if insuranceFires st2
    then (Insurance, InsuranceNote (getTrueCountRounded st2))
    else (a, IndexNote i a (getTrueCountRounded st2)).
Proof.
  intros Hr Ht Hv Hd Htc Hsel.
  unfold legacyDecision at 1. destruct (insuranceFires st2); [reflexivity|].
  unfold legacyDecision in Hsel.
  destruct (insuranceFires st1); [discriminate Hsel|].
  destruct (handTiers_cases st1)
    as [(H & _) | (Hnot & [(i' & a' & H & Hdev & _ & _) | (H & _)])];
    rewrite H in Hsel; simpl in Hsel; try discriminate Hsel.
  injection Hsel as -> -> _.
  unfold handTiers.
  destruct (surrenderTier_fires st2) as [(_ & Hl & Hs) | (-> & _)].
  - exfalso. apply Hnot. split; [rewrite Hr; exact Hl|].
    unfold inSurrenderSet in *. rewrite Ht, Hv, Hd. exact Hs.
  - rewrite deviationTier_index in Hdev. rewrite deviationTier_index.
    rewrite <- Ht, <- Hv, <- Hd.
    destruct (deviationIndex _ _) as [[i0 a0]|]; [|discriminate Hdev].
    destruct (i0 <=? getTrueCountRounded st1) eqn:H1; [|discriminate Hdev].
    injection Hdev as -> ->.
    destruct (i <=? getTrueCountRounded st2) eqn:H2; [reflexivity | lia].
Qed.

Lemma deviation_fires_upward_witness :
  let st1 := elevenAgainstAce 2 in
  let st2 := elevenAgainstAce 4 in
  rules st1 = rules st2
  /\ getTrueCountRounded st1 = 1
  /\ getTrueCountRounded st2 = 2
  /\ snd (legacyDecision st1) = IndexNote 1 Double 1
  /\ insuranceFires st2 = false
  /\ legacyDecision st2 = (Double, IndexNote 1 Double 2).
Proof.
  split; [reflexivity|]. split; [vm_compute; reflexivity|].
  split; [vm_compute; reflexivity|]. split; [vm_compute; reflexivity|].
  split; [vm_compute; reflexivity|].
  change (Double, IndexNote 1 Double 2)
    with (if insuranceFires (elevenAgainstAce 4)
          then (Insurance, InsuranceNote (getTrueCountRounded (elevenAgainstAce 4)))
          else (Double, IndexNote 1 Double (getTrueCountRounded (elevenAgainstAce 4)))).
  apply (deviation_fires_upward (elevenAgainstAce 2) (elevenAgainstAce 4) 1 1 Double);
    [reflexivity | reflexivity | reflexivity | reflexivity
    | vm_compute; discriminate | vm_compute; reflexivity].
Defined.

(** X20.  A note of the form 'Index i -> action (TC = tc)' is only ever
    attached to the action it names, cites the rounded true count of the
    state, and names a threshold of 0 or more that this count has reached;
    the action it names is Stand, Double or Split. *)
Theorem index_note_is_accurate (st : State) (i tc : Z) (a : Action) :
  snd (legacyDecision st) = IndexNote i a tc ->
  fst (legacyDecision st) = a
  /\ tc = getTrueCountRounded st
  /\ 0 <= i <= tc
  /\ (a = Stand \/ a = Double \/ a = Split).
Proof.
  unfold legacyDecision. destruct (insuranceFires st); simpl; [discriminate|].
  destruct (handTiers_cases st)
    as [(H & _) | (_ & [(i' & a' & H & _ & Hi & Ha) | (H & _)])];
    rewrite H; simpl; try discriminate.
  intros [= <- <- <-]. auto.
Qed.

Lemma index_note_is_accurate_witness :
  let st := freshState (exampleRules 6) in
  snd (legacyDecision st) = IndexNote 0 Stand 0
  /\ fst (legacyDecision st) = Stand.
Proof.
  split; [reflexivity|].
  apply (index_note_is_accurate (freshState (exampleRules 6)) 0 0 Stand eq_refl).
Defined.

(** X21.  [getRecommendationLegacy] never stores a recommendation: on
    every state it throws a ReferenceError for [calculateEV] while it builds
    the argument of [setRecommendation], so every cell stays as it was. *)
Theorem legacy_recommendation_never_stored
    (calculateEV : Z -> Rules -> Q) (st : State) :
  getRecommendationLegacy calculateEV st = Throw (ReferenceError "calculateEV")
  /\ cellsAfter st (getRecommendationLegacy calculateEV st) = st.
Proof.
  assert (H : getRecommendationLegacy calculateEV st
              = Throw (ReferenceError "calculateEV")).
  { unfold getRecommendationLegacy. destruct (legacyDecision st). reflexivity. }
  rewrite H. split; reflexivity.
Qed.

(** X22.  For hard 11 against the ace the index deviation (+1, Double) is
    idle: whenever the insurance tier does not fire the selected action is
    Double at every true count, from basic strategy below the index and
    from the deviation at or above it; only the note differs. *)
Theorem hard11_vs_ace_always_double (st : State) :
  handType st = "hard" ->
  handValue st = "11" ->
  dealerCard st = "A" ->
  insuranceFires st = false ->
  fst (legacyDecision st) = Double
  /\ (snd (legacyDecision st) = BasicStrategyNote
      <-> getTrueCountRounded st < 1).
Proof.
  intros Htype Hvalue Hdealer Hins.
  unfold legacyDecision. rewrite Hins.
  unfold handTiers, surrenderTier, deviationTier.
  rewrite Htype, Hvalue, Hdealer.
  generalize (getTrueCountRounded st) as tc. intros tc.
  change (dealerValue "A") with (Some 11).
  change ("hard" ++ "-" ++ "11") with "hard-11".
  destruct (lateSurrender (rules st));
    destruct (0 <=? tc) eqn:H0; destruct (1 <=? tc) eqn:H1;
    destruct (2 <=? tc) eqn:H2; destruct (3 <=? tc) eqn:H3;
    destruct (4 <=? tc) eqn:H4;
    try (exfalso; lia);
    (split; [reflexivity|]);
    (split; [intros H; first [lia | discriminate H] | intros H; first [reflexivity | lia]]).
Qed.

Lemma hard11_vs_ace_always_double_witness :
  let st := mkState (mkRules 6 "hi-lo" false false true) 0
                    (initialCards (exampleRules 6)) [] "hard" "11" "A" None in
  handType st = "hard" /\ handValue st = "11" /\ dealerCard st = "A"
  /\ insuranceFires st = false
  /\ fst (legacyDecision st) = Double.
Proof.
  repeat (split; [reflexivity|]).
  apply (hard11_vs_ace_always_double
           (mkState (mkRules 6 "hi-lo" false false true) 0
                    (initialCards (exampleRules 6)) [] "hard" "11" "A" None)
           eq_refl eq_refl eq_refl eq_refl).
Defined.
